(** * The Ilocano constitution assistant: the query pipeline of [rag_system.py]

    A shallow embedding of [RAGSystem] (translate, retrieve, generate, the
    LangGraph workflow and [query]) together with the chat turn of [app.py],
    and the properties of the pipeline proved about it.

    Conventions of the model.
    - A Python [str] is a [string]; a character is a code point below 256,
      and [lower], [strip] are Python's [str.lower], [str.strip] on that range.
    - An exception is an instance of (a subclass of) Python's [Exception],
      which is what every handler of the source catches; it carries [str(e)].
    - The providers (chat model, embedding model, vector index) are external.
      They are functions that may answer or raise and that thread a provider
      state of their own, so that a provider may answer differently from one
      call to the next.  Every provider call, log record, executed graph node
      and Streamlit output is appended to a trace.
    - The scripts ([process_documents.py], [run.py]) are computations over
      the lines printed so far that end with a value, an exception or
      [sys.exit].  The file system, the environment and the tools they call
      are arguments.  The fixed messages hold characters above code point 255
      (emoji); these are carried as their UTF-8 bytes and are only
      concatenated and printed. *)

From Stdlib Require Import String Ascii List Bool Arith Lia QArith DecimalString.
Import ListNotations.
Close Scope Q_scope.
Local Open Scope nat_scope.
Local Open Scope list_scope.
Local Open Scope string_scope.

(** ** Python string operations used by the pipeline *)

Module PyStr.

Definition nl : string := String (ascii_of_nat 10) EmptyString.

(** [str.lower] on code points below 256: the ASCII capitals and the
    Latin-1 capitals (all of 0xC0..0xDE but the multiplication sign). *)
Definition lower_char (c : ascii) : ascii :=
  let n := nat_of_ascii c in
  if (((65 <=? n) && (n <=? 90)) ||
      ((192 <=? n) && (n <=? 222) && negb (n =? 215)))%nat
  then ascii_of_nat (n + 32) else c.

Fixpoint lower (s : string) : string :=
  match s with
  | EmptyString => EmptyString
  | String c t => String (lower_char c) (lower t)
  end.

(** [str.isspace] on one character, code points below 256. *)
Definition isspace (c : ascii) : bool :=
  let n := nat_of_ascii c in
  (((9 <=? n) && (n <=? 13)) || ((28 <=? n) && (n <=? 32)) ||
   (n =? 133) || (n =? 160))%nat.

Fixpoint lstrip (s : string) : string :=
  match s with
  | EmptyString => EmptyString
  | String c t => if isspace c then lstrip t else s
  end.

Fixpoint rstrip (s : string) : string :=
  match s with
  | EmptyString => EmptyString
  | String c t =>
      match rstrip t with
      | EmptyString => if isspace c then EmptyString else String c EmptyString
      | t' => String c t'
      end
  end.

Definition strip (s : string) : string := rstrip (lstrip s).

(** [sub in s] *)
Fixpoint contains (sub s : string) : bool :=
  prefix sub s ||
  match s with
  | EmptyString => false
  | String _ t => contains sub t
  end.

(** [sep.join(parts)] *)
Fixpoint join (sep : string) (parts : list string) : string :=
  match parts with
  | [] => EmptyString
  | p :: rest =>
      match rest with
      | [] => p
      | _ :: _ => p ++ sep ++ join sep rest
      end
  end.

(** [str(n)] for a natural number, as an f-string renders [len(docs)]. *)
Definition str_of_nat (n : nat) : string :=
  NilEmpty.string_of_uint (Nat.to_uint n).

(** The lines of a triple-quoted literal, joined by newlines. *)
Definition lines (ls : list string) : string := join nl ls.

End PyStr.

(** ** The language detector of [translate_node] *)

Definition ilocano_indicators : list string :=
  [ "ti"; "iti"; "dagiti"; "kadagiti"; "ken"; "wenno"; "ania"; "sadino";
    "kasano"; "apay"; "kayat"; "mabalin"; "saan"; "adda"; "awan";
    "agsaludsod"; "maipapan"; "konstitusion" ].

(** [any(indicator in query.lower() for indicator in ilocano_indicators)] *)
Definition is_ilocano (query : string) : bool :=
  existsb (fun indicator => PyStr.contains indicator (PyStr.lower query))
          ilocano_indicators.

(** ** Exceptions, provider results and the trace *)

(** An instance of [Exception]; [str_exn] is Python's [str(e)]. *)
Inductive exn : Type := Exception (msg : string).

Definition str_exn (e : exn) : string := let 'Exception msg := e in msg.

Inductive result (A : Type) : Type :=
| Ok (a : A)
| Raise (e : exn).
Arguments Ok {A} a.
Arguments Raise {A} e.

(** The keyword arguments given to [ChatOpenAI] in [__init__]. *)
Record LLMConfig : Type := {
  model_name : string;
  temperature : Q;
  max_tokens : nat;
  top_p : Q
}.

(** The message a chat model answers with. *)
Record AIMessage : Type := { content : string }.

(** A chunk of the vector index. *)
Record Document : Type := {
  page_content : string;
  metadata : list (string * string)
}.

Inductive Level : Type := INFO | ERROR.

Inductive Event : Type :=
| LLMCall (cfg : LLMConfig) (prompt : string)
| EmbedCall (text : string)
| IndexSearch (k : nat)
| NodeRun (name : string)
| Log (level : Level) (msg : string)
| StMarkdown (role : string) (body : string)
| StError (body : string).

(** The external providers: the chat model and the embedding model.  Each
    threads the provider state [PS]. *)
Record Providers (PS Vec : Type) : Type := {
  chat_completions : LLMConfig -> string -> PS -> result AIMessage * PS;
  embed_query : string -> PS -> result Vec * PS
}.
Arguments chat_completions {PS Vec} _ _ _ _.
Arguments embed_query {PS Vec} _ _ _.

(** The loaded FAISS index: for an embedded query, every chunk of the index
    by decreasing similarity, or a failure of the search. *)
Record FAISS (Vec : Type) : Type := {
  ranked : Vec -> result (list Document)
}.
Arguments ranked {Vec} _ _.

(** [vectorstore.as_retriever(search_type="similarity", search_kwargs={"k": k})] *)
Record VectorStoreRetriever (Vec : Type) : Type := {
  vectorstore_of : FAISS Vec;
  search_k : nat
}.
Arguments vectorstore_of {Vec} _.
Arguments search_k {Vec} _.

Record World (PS : Type) : Type := {
  provider_state : PS;
  trace : list Event
}.
Arguments provider_state {PS} _.
Arguments trace {PS} _.

(** The world after one more event. *)
Definition record {PS : Type} (ev : Event) (w : World PS) : World PS :=
  {| provider_state := provider_state w; trace := (trace w ++ [ev])%list |}.

(** ** The state and exception monad of the pipeline *)

Definition M (PS A : Type) : Type := World PS -> result A * World PS.

Definition ret {PS A : Type} (a : A) : M PS A := fun w => (Ok a, w).

Definition raise {PS A : Type} (e : exn) : M PS A := fun w => (Raise e, w).

Definition bind {PS A B : Type} (m : M PS A) (f : A -> M PS B) : M PS B :=
  fun w =>
    match m w with
    | (Ok a, w') => f a w'
    | (Raise e, w') => (Raise e, w')
    end.

(** [try: m  except Exception as e: h e] *)
Definition try_except {PS A : Type} (m : M PS A) (h : exn -> M PS A) : M PS A :=
  fun w =>
    match m w with
    | (Ok a, w') => (Ok a, w')
    | (Raise e, w') => h e w'
    end.

Definition emit {PS : Type} (ev : Event) : M PS unit :=
  fun w => (Ok tt, record ev w).

Declare Scope monad_scope.
Delimit Scope monad_scope with monad.
Notation "x <- c1 ;; c2" := (bind c1 (fun x => c2))
  (at level 61, c1 at next level, right associativity) : monad_scope.
Notation "c1 ;; c2" := (bind c1 (fun _ => c2))
  (at level 61, right associativity) : monad_scope.
Local Open Scope monad_scope.

Definition logger_info {PS : Type} (msg : string) : M PS unit := emit (Log INFO msg).
Definition logger_error {PS : Type} (msg : string) : M PS unit := emit (Log ERROR msg).

(** Lifts a pure provider answer into the monad. *)
Definition of_result {PS A : Type} (r : result A) : M PS A := fun w => (r, w).

(** ** Prompt templates *)

Module PromptTemplate.

Record t : Type := {
  input_variables : list string;
  template : string
}.

Fixpoint lookup (name : string) (kwargs : list (string * string)) : option string :=
  match kwargs with
  | [] => None
  | (k, v) :: rest => if String.eqb k name then Some v else lookup name rest
  end.

(** Where the scan of [str.format] stands: in literal text, just after an
    opening brace, inside a field name, or just after a closing brace. *)
Inductive mode : Type :=
| Text
| AfterOpen
| InName (name : string)
| AfterClose.

Definition open_brace : ascii := "{"%char.
Definition close_brace : ascii := "}"%char.

Definition substitute (name : string) (kwargs : list (string * string))
           (rest : result string) : result string :=
  match lookup name kwargs with
  | None => Raise (Exception ("'" ++ name ++ "'"))
  | Some v =>
      match rest with
      | Ok r => Ok (v ++ r)
      | Raise e => Raise e
      end
  end.

Definition literal (c : ascii) (rest : result string) : result string :=
  match rest with
  | Ok r => Ok (String c r)
  | Raise e => Raise e
  end.

(** [str.format] with keyword arguments, for plain named fields: a doubled brace is
    a literal brace, a field is replaced by its value, which is not
    scanned again; a stray brace or a missing key raises. *)
Fixpoint format_from (m : mode) (template : string)
         (kwargs : list (string * string)) : result string :=
  match template with
  | EmptyString =>
      match m with
      | Text => Ok EmptyString
      | AfterClose => Raise (Exception "Single '}' encountered in format string")
      | _ => Raise (Exception "Single '{' encountered in format string")
      end
  | String c rest =>
      match m with
      | Text =>
          if Ascii.eqb c open_brace then format_from AfterOpen rest kwargs
          else if Ascii.eqb c close_brace then format_from AfterClose rest kwargs
          else literal c (format_from Text rest kwargs)
      | AfterOpen =>
          if Ascii.eqb c open_brace then literal c (format_from Text rest kwargs)
          else if Ascii.eqb c close_brace
               then substitute EmptyString kwargs (format_from Text rest kwargs)
               else format_from (InName (String c EmptyString)) rest kwargs
      | InName name =>
          if Ascii.eqb c close_brace
          then substitute name kwargs (format_from Text rest kwargs)
          else format_from (InName (name ++ String c EmptyString)) rest kwargs
      | AfterClose =>
          if Ascii.eqb c close_brace then literal c (format_from Text rest kwargs)
          else Raise (Exception "Single '}' encountered in format string")
      end
  end.

Definition missing (p : t) (kwargs : list (string * string)) : list string :=
  filter (fun v => match lookup v kwargs with None => true | Some _ => false end)
         (input_variables p).

(** [prompt.invoke(kwargs)]: every input variable must be given, then the
    template is formatted.  A missing variable raises; the text of that error
    is the library's and is only abridged here, and no statement depends on
    it: the pipeline always gives every variable. *)
Definition format (p : t) (kwargs : list (string * string)) : result string :=
  match missing p kwargs with
  | [] => format_from Text (template p) kwargs
  | v :: _ => Raise (Exception ("Input to PromptTemplate is missing variables: " ++ v))
  end.

End PromptTemplate.

(** [setup_prompt_templates]: the two templates, line by line. *)
Definition translation_prompt : PromptTemplate.t :=
  {| PromptTemplate.input_variables := ["query"; "language"];
     PromptTemplate.template := PyStr.lines
       [ "";
         "            You are an expert translator specializing in Philippine constitutional law and Ilocano language.";
         "            ";
         "            Translate the following query into English if it's in Ilocano, or identify if it's already in English:";
         "            Query: {query}";
         "            Target Language: {language}";
         "            ";
         "            If the query is in Ilocano, provide an accurate English translation.";
         "            If the query is already in English, return it as-is.";
         "            ";
         "            Translation:";
         "            " ] |}.

Definition rag_prompt : PromptTemplate.t :=
  {| PromptTemplate.input_variables := ["context"; "question"];
     PromptTemplate.template := PyStr.lines
       [ "";
         "            You are an expert on Philippine Constitutional Law with deep knowledge of Ilocano culture and language.";
         "            Your role is to help Filipino citizens understand their constitutional rights in Ilocano dialect.";
         "            ";
         "            Use the following constitutional documents as context to answer the question:";
         "            {context}";
         "            ";
         "            Question: {question}";
         "            ";
         "            Instructions:";
         "            1. Answer primarily in Ilocano (Ilokano) dialect";
         "            2. Use simple, accessible language that ordinary citizens can understand";
         "            3. Include relevant constitutional articles or sections";
         "            4. Explain legal concepts using familiar Ilocano cultural references when appropriate";
         "            5. If translating legal terms, provide both Ilocano and English versions";
         "            6. Be accurate and cite specific constitutional provisions when possible";
         "            7. Keep your response concise and avoid repetition";
         "            8. Provide a single, clear explanation without repeating the same information multiple times";
         "            9. ALWAYS provide an English translation after your Ilocano response";
         "            ";
         "            Format your response exactly like this:";
         "            ";
         "            **Ilocano:**";
         "            [Your response in Ilocano here]";
         "            ";
         "            **English Translation:**";
         "            [Complete English translation of your Ilocano response here]";
         "            ";
         "            Provide ONE clear, concise answer:";
         "            " ] |}.

(** ** The request state *)

Module GraphState.

Record t : Type := {
  query : string;
  translated_query : string;
  context : string;
  answer : string;
  source_docs : list Document
}.

(** [state["translated_query"] = v] *)
Definition set_translated_query (v : string) (s : t) : t :=
  {| query := query s; translated_query := v; context := context s;
     answer := answer s; source_docs := source_docs s |}.

(** [state["context"] = v] *)
Definition set_context (v : string) (s : t) : t :=
  {| query := query s; translated_query := translated_query s; context := v;
     answer := answer s; source_docs := source_docs s |}.

(** [state["source_docs"] = v] *)
Definition set_source_docs (v : list Document) (s : t) : t :=
  {| query := query s; translated_query := translated_query s;
     context := context s; answer := answer s; source_docs := v |}.

(** [state["answer"] = v] *)
Definition set_answer (v : string) (s : t) : t :=
  {| query := query s; translated_query := translated_query s;
     context := context s; answer := v; source_docs := source_docs s |}.

End GraphState.

(** ** The LangGraph workflow *)

Module StateGraph.

Definition START : string := "__start__".
Definition END : string := "__end__".

(** The default [recursion_limit] of an invocation. *)
Definition recursion_limit : nat := 25.

Record t (PS : Type) : Type := {
  nodes : list (string * (GraphState.t -> M PS GraphState.t));
  edges : list (string * string)
}.
Arguments nodes {PS} _.
Arguments edges {PS} _.

Definition empty {PS : Type} : t PS := {| nodes := []; edges := [] |}.

Definition add_node {PS : Type} (name : string)
           (f : GraphState.t -> M PS GraphState.t) (g : t PS) : t PS :=
  {| nodes := (nodes g ++ [(name, f)])%list; edges := edges g |}.

Definition add_edge {PS : Type} (src dst : string) (g : t PS) : t PS :=
  {| nodes := nodes g; edges := (edges g ++ [(src, dst)])%list |}.

Fixpoint successor (cur : string) (es : list (string * string)) : option string :=
  match es with
  | [] => None
  | (a, b) :: rest => if String.eqb a cur then Some b else successor cur rest
  end.

Fixpoint node_named {PS : Type} (name : string)
         (ns : list (string * (GraphState.t -> M PS GraphState.t)))
  : option (GraphState.t -> M PS GraphState.t) :=
  match ns with
  | [] => None
  | (n, f) :: rest => if String.eqb n name then Some f else node_named name rest
  end.

(** One step per node along the edges, from [cur] until [END]; every node
    that starts is recorded, a node that raises ends the run. *)
Fixpoint run_from {PS : Type} (g : t PS) (fuel : nat) (cur : string)
         (state : GraphState.t) : M PS GraphState.t :=
  match fuel with
  | O => raise (Exception "Recursion limit of 25 reached without hitting a stop condition.")
  | S fuel' =>
      match successor cur (edges g) with
      | None => ret state
      | Some next =>
          if String.eqb next END then ret state
          else match node_named next (nodes g) with
               | None => raise (Exception ("Found edge ending at unknown node `" ++ next ++ "`"))
               | Some f =>
                   (emit (NodeRun next) ;;
                    state' <- f state ;;
                    run_from g fuel' next state')%monad
               end
      end
  end.

(** [workflow.compile()], as the function [invoke] of the compiled graph. *)
Definition compile {PS : Type} (g : t PS) : GraphState.t -> M PS GraphState.t :=
  run_from g recursion_limit START.

End StateGraph.

(** ** [RAGSystem] *)

(** The truth value of [os.getenv(name)]: set, and not empty. *)
Definition getenv_truthy (value : option string) : bool :=
  match value with
  | None => false
  | Some EmptyString => false
  | Some (String _ _) => true
  end.

(** What [ChatOpenAI(...)] and [OpenAIEmbeddings()] do with the credential:
    the client is built when [OPENAI_API_KEY] is set and not empty, and the
    constructor raises otherwise.  The text of the error is the library's
    and no statement depends on it. *)
Definition openai_client (OPENAI_API_KEY : option string) : result unit :=
  if getenv_truthy OPENAI_API_KEY then Ok tt
  else Raise (Exception "The api_key client option must be set either by passing api_key to the client or by setting the OPENAI_API_KEY environment variable").

Record RAGSystem (PS Vec : Type) : Type := {
  llm : LLMConfig;
  vectorstore : option (FAISS Vec);
  retriever : option (VectorStoreRetriever Vec);
  app : option (GraphState.t -> M PS GraphState.t)
}.
Arguments llm {PS Vec} _.
Arguments vectorstore {PS Vec} _.
Arguments retriever {PS Vec} _.
Arguments app {PS Vec} _.

(** [ChatOpenAI(model_name="gpt-4.1", temperature=0, max_tokens=1000, top_p=0.9)] *)
Definition ChatOpenAI_config : LLMConfig :=
  {| model_name := "gpt-4.1"; temperature := 0%Q; max_tokens := 1000; top_p := (9 # 10)%Q |}.

Definition not_loaded_message : string :=
  "Vector store not loaded. Please run `python process_documents.py` first.".

Definition no_documents_message : string :=
  "No documents available. Please run process_documents.py first.".

Definition retrieval_error_message : string := "Error retrieving documents.".

Section Pipeline.

Context {PS Vec : Type} (P : Providers PS Vec).

(** One call of the chat model with the configuration [cfg]. *)
Definition llm_invoke (cfg : LLMConfig) (prompt : string) : M PS AIMessage :=
  fun w =>
    let '(r, st) := chat_completions P cfg prompt (provider_state w) in
    (r, {| provider_state := st; trace := (trace w ++ [LLMCall cfg prompt])%list |}).

(** [(prompt | llm).invoke(kwargs)] *)
Definition chain_invoke (prompt : PromptTemplate.t) (cfg : LLMConfig)
           (kwargs : list (string * string)) : M PS AIMessage :=
  text <- of_result (PromptTemplate.format prompt kwargs) ;;
  llm_invoke cfg text.

Definition embeddings_embed_query (text : string) : M PS Vec :=
  fun w =>
    let '(r, st) := embed_query P text (provider_state w) in
    (r, {| provider_state := st; trace := (trace w ++ [EmbedCall text])%list |}).

(** [retriever.invoke(q)]: the query is embedded and the index returns the
    [search_k] most similar chunks, most similar first. *)
Definition retriever_invoke (r : VectorStoreRetriever Vec) (q : string)
  : M PS (list Document) :=
  v <- embeddings_embed_query q ;;
  emit (IndexSearch (search_k r)) ;;
  docs <- of_result (ranked (vectorstore_of r) v) ;;
  ret (firstn (search_k r) docs).

(** [load_vectorstore]; [disk] is [None] when the directory [vectorstore]
    does not exist, and otherwise what [FAISS.load_local] does. *)
Definition load_vectorstore (disk : option (result (FAISS Vec)))
           (self : RAGSystem PS Vec) : M PS (RAGSystem PS Vec) :=
  try_except
    (match disk with
     | Some loaded =>
         vs <- of_result loaded ;;
         let self := {| llm := llm self; vectorstore := Some vs;
                        retriever := Some {| vectorstore_of := vs; search_k := 5 |};
                        app := app self |} in
         logger_info "Vector store loaded successfully" ;;
         ret self
     | None =>
         logger_error "Vector store not found. Please run process_documents.py first." ;;
         ret self
     end)
    (fun e =>
       logger_error ("Error loading vector store: " ++ str_exn e) ;;
       ret self).

Definition translate_node (self : RAGSystem PS Vec) (state : GraphState.t)
  : M PS GraphState.t :=
  let query := GraphState.query state in
  if is_ilocano query then
    try_except
      (translated <- chain_invoke translation_prompt (llm self)
                       [("query", query); ("language", "English")] ;;
       let state := GraphState.set_translated_query
                      (PyStr.strip (content translated)) state in
       logger_info ("Translated: '" ++ query ++ "' -> '"
                    ++ GraphState.translated_query state ++ "'") ;;
       ret state)
      (fun e =>
         logger_error ("Translation error: " ++ str_exn e) ;;
         ret (GraphState.set_translated_query query state))
  else ret (GraphState.set_translated_query query state).

Definition retrieve_node (self : RAGSystem PS Vec) (state : GraphState.t)
  : M PS GraphState.t :=
  match retriever self with
  | Some r =>
      try_except
        (docs <- retriever_invoke r (GraphState.translated_query state) ;;
         let state := GraphState.set_context
                        (PyStr.join (PyStr.nl ++ PyStr.nl) (map page_content docs))
                        state in
         let state := GraphState.set_source_docs docs state in
         logger_info ("Retrieved " ++ PyStr.str_of_nat (length docs)
                      ++ " relevant documents") ;;
         ret state)
        (fun e =>
           logger_error ("Retrieval error: " ++ str_exn e) ;;
           ret (GraphState.set_source_docs []
                  (GraphState.set_context retrieval_error_message state)))
  | None =>
      ret (GraphState.set_source_docs []
             (GraphState.set_context no_documents_message state))
  end.

Definition generate_node (self : RAGSystem PS Vec) (state : GraphState.t)
  : M PS GraphState.t :=
  try_except
    (response <- chain_invoke rag_prompt (llm self)
                   [("context", GraphState.context state);
                    ("question", GraphState.query state)] ;;
     logger_info ("Agent response: " ++ content response) ;;
     let state := GraphState.set_answer (content response) state in
     logger_info "Generated response successfully" ;;
     ret state)
    (fun e =>
       logger_error ("Generation error: " ++ str_exn e) ;;
       ret (GraphState.set_answer
              ("Error generating response: " ++ str_exn e) state)).

(** The workflow built by [setup_graph]. *)
Definition workflow (self : RAGSystem PS Vec) : StateGraph.t PS :=
  StateGraph.add_edge "generate" StateGraph.END
    (StateGraph.add_edge "retrieve" "generate"
      (StateGraph.add_edge "translate" "retrieve"
        (StateGraph.add_edge StateGraph.START "translate"
          (StateGraph.add_node "generate" (generate_node self)
            (StateGraph.add_node "retrieve" (retrieve_node self)
              (StateGraph.add_node "translate" (translate_node self)
                StateGraph.empty)))))).

Definition setup_graph (self : RAGSystem PS Vec) : M PS (RAGSystem PS Vec) :=
  let self := {| llm := llm self; vectorstore := vectorstore self;
                 retriever := retriever self;
                 app := Some (StateGraph.compile (workflow self)) |} in
  logger_info "LangGraph workflow compiled successfully" ;;
  ret self.

(** [RAGSystem.__init__]: the two clients are constructed outside any
    [try], so a constructor that raises ends [__init__]. *)
Definition RAGSystem_init (OPENAI_API_KEY : option string)
           (disk : option (result (FAISS Vec))) : M PS (RAGSystem PS Vec) :=
  of_result (openai_client OPENAI_API_KEY) ;;
  of_result (openai_client OPENAI_API_KEY) ;;
  let self := {| llm := ChatOpenAI_config; vectorstore := None;
                 retriever := None; app := None |} in
  self <- load_vectorstore disk self ;;
  setup_graph self.

(** [self.app.invoke(state)] *)
Definition app_invoke (self : RAGSystem PS Vec) (state : GraphState.t)
  : M PS GraphState.t :=
  match app self with
  | Some invoke => invoke state
  | None => raise (Exception "'RAGSystem' object has no attribute 'app'")
  end.

Definition initial_state (question : string) : GraphState.t :=
  {| GraphState.query := question;
     GraphState.translated_query := "";
     GraphState.context := "";
     GraphState.answer := "";
     GraphState.source_docs := [] |}.

(** [RAGSystem.query] *)
Definition query (self : RAGSystem PS Vec) (question : string) : M PS string :=
  try_except
    (match retriever self with
     | None => ret not_loaded_message
     | Some _ =>
         logger_info ("Processing query: " ++ question) ;;
         result <- app_invoke self (initial_state question) ;;
         ret (GraphState.answer result)
     end)
    (fun e =>
       let error_msg := "Error processing query: " ++ str_exn e in
       logger_error error_msg ;;
       ret error_msg).

(** *** The chat turn of [display_chat_interface] in [app.py] *)



End Pipeline.

(** ** Observations on a trace *)

(** The chat-model calls of a trace, in order. *)
Fixpoint llm_calls (tr : list Event) : list (LLMConfig * string) :=
  match tr with
  | [] => []
  | LLMCall cfg prompt :: rest => (cfg, prompt) :: llm_calls rest
  | _ :: rest => llm_calls rest
  end.

(** The texts sent to the embedding model, in order. *)
Fixpoint embed_calls (tr : list Event) : list string :=
  match tr with
  | [] => []
  | EmbedCall text :: rest => text :: embed_calls rest
  | _ :: rest => embed_calls rest
  end.

(** The graph nodes that ran, in order. *)
Fixpoint nodes_run (tr : list Event) : list string :=
  match tr with
  | [] => []
  | NodeRun name :: rest => name :: nodes_run rest
  | _ :: rest => nodes_run rest
  end.

Definition is_provider_call (ev : Event) : bool :=
  match ev with
  | LLMCall _ _ | EmbedCall _ | IndexSearch _ => true
  | _ => false
  end.

(** ** Stub providers *)

Module Stub.

(** A chat model that answers with its prompt. *)
Definition echo_llm : LLMConfig -> string -> unit -> result AIMessage * unit :=
  fun _ prompt st => (Ok {| content := prompt |}, st).

(** A chat model that always raises. *)
Definition failing_llm : LLMConfig -> string -> unit -> result AIMessage * unit :=
  fun _ _ st => (Raise (Exception "Connection error."), st).

Definition unit_embed : string -> unit -> result unit * unit :=
  fun _ st => (Ok tt, st).

Definition failing_embed : string -> unit -> result unit * unit :=
  fun _ st => (Raise (Exception "Connection error."), st).

Definition echo : Providers unit unit :=
  {| chat_completions := echo_llm; embed_query := unit_embed |}.

Definition down : Providers unit unit :=
  {| chat_completions := failing_llm; embed_query := failing_embed |}.

(** An index holding the single chunk [T]. *)
Definition one_chunk (T : string) : FAISS unit :=
  {| ranked := fun _ => Ok [ {| page_content := T;
                                metadata := [("filename", "constitution.pdf")] |} ] |}.

Definition chunk (n : nat) : Document :=
  {| page_content := "chunk " ++ PyStr.str_of_nat n; metadata := [] |}.

(** An index holding seven chunks. *)
Definition seven_chunks : FAISS unit :=
  {| ranked := fun _ => Ok (map chunk [1; 2; 3; 4; 5; 6; 7]) |}.

Definition w0 : World unit := {| provider_state := tt; trace := [] |}.

(** A credential that is set. *)
Definition key : option string := Some "sk-test".

(** An object as [__init__] leaves it when no index is on disk. *)
Definition unloaded : RAGSystem unit unit :=
  {| llm := ChatOpenAI_config; vectorstore := None; retriever := None;
     app := Some (StateGraph.compile
                    (workflow echo {| llm := ChatOpenAI_config; vectorstore := None;
                                      retriever := None; app := None |})) |}.

(** An object over the seven-chunk index whose providers are down. *)
Definition offline : RAGSystem unit unit :=
  {| llm := ChatOpenAI_config; vectorstore := Some seven_chunks;
     retriever := Some {| vectorstore_of := seven_chunks; search_k := 5 |};
     app := None |}.

(** An object whose graph run raises. *)
Definition broken_graph : RAGSystem unit unit :=
  {| llm := ChatOpenAI_config; vectorstore := Some seven_chunks;
     retriever := Some {| vectorstore_of := seven_chunks; search_k := 5 |};
     app := Some (fun _ => raise (Exception "graph run failed")) |}.


End Stub.

(** ** Dictionaries keyed by strings, in insertion order *)

Module PyDict.

(** [d.get(key)] *)
Fixpoint get {V : Type} (key : string) (d : list (string * V)) : option V :=
  match d with
  | [] => None
  | (k, v) :: rest => if String.eqb k key then Some v else get key rest
  end.

(** [d.get(key, default)] *)
Definition get_default {V : Type} (key : string) (default : V)
           (d : list (string * V)) : V :=
  match get key d with
  | Some v => v
  | None => default
  end.

(** [d[key] = v]: a key already present keeps its place, a new key goes last. *)
Fixpoint setitem {V : Type} (key : string) (v : V) (d : list (string * V))
  : list (string * V) :=
  match d with
  | [] => [(key, v)]
  | (k, v') :: rest =>
      if String.eqb k key then (k, v) :: rest else (k, v') :: setitem key v rest
  end.

(** [d.update(other)] *)
Definition update {V : Type} (other d : list (string * V)) : list (string * V) :=
  fold_left (fun acc kv => setitem (fst kv) (snd kv) acc) other d.

End PyDict.

(** ** Directory entries *)

Module PyPath.

(** An entry of a directory: [p.name], [str(p)] and [p.is_file()]. *)
Record t : Type := {
  name : string;
  str : string;
  is_file : bool
}.

(** [s[i:]] for the last dot of [s], at index [i]. *)
Fixpoint from_last_dot (s : string) : option string :=
  match s with
  | EmptyString => None
  | String c rest =>
      match from_last_dot rest with
      | Some suf => Some suf
      | None => if Ascii.eqb c "."%char then Some s else None
      end
  end.

(** [PurePath.suffix] of a name: [name[i:]] for [i = name.rfind('.')] when
    [0 < i < len(name) - 1], and the empty string otherwise. *)
Definition suffix_of (name : string) : string :=
  match name with
  | EmptyString => EmptyString
  | String _ rest =>
      match from_last_dot rest with
      | Some suf => if (1 <? String.length suf)%nat then suf else EmptyString
      | None => EmptyString
      end
  end.

Definition suffix (p : t) : string := suffix_of (name p).

End PyPath.

(** A folder on disk: [None] when [Path(folder).exists()] is false, and
    otherwise what [iterdir()] lists. *)
Definition Folder : Type := option (list PyPath.t).

(** ** [utils.py] *)

(** [check_openai_key] *)
Definition check_openai_key (OPENAI_API_KEY : option string) : bool :=
  getenv_truthy OPENAI_API_KEY.




(** The loop of [format_sources]: [enumerate] from [i], [formatted] so far. *)
Fixpoint format_sources_from (i : nat) (sources : list Document)
         (formatted : string) : string :=
  match sources with
  | [] => formatted
  | source :: rest =>
      let filename := PyDict.get_default "filename" "Unknown" (metadata source) in
      format_sources_from (S i) rest
        (formatted ++ PyStr.str_of_nat i ++ ". " ++ filename ++ PyStr.nl)
  end.

(** The first line of [format_sources]; the book emoji is kept as its
    UTF-8 bytes. *)
Definition sources_header : string := "📚 **Sources:**" ++ PyStr.nl.

(** The line of [format_sources] for the [i]-th source. *)
Definition source_line (numbered : nat * Document) : string :=
  PyStr.str_of_nat (fst numbered) ++ ". "
  ++ PyDict.get_default "filename" "Unknown" (metadata (snd numbered)) ++ PyStr.nl.

(** [format_sources] *)
Definition format_sources (sources : list Document) : string :=
  match sources with
  | [] => "No sources found."
  | _ :: _ => format_sources_from 1 sources sources_header
  end.

Module Logging.

Inductive Handler : Type :=
| FileHandler (filename : string) (level : Level) (formatter : string)
| StreamHandler (level : Level) (formatter : string).

(** A logger of the [logging] registry. *)
Record Logger : Type := {
  level : option Level;
  handlers : list Handler
}.

(** What a process has on disk and in the registry: the directories made,
    the log files opened, and the logger named after the module. *)
Record Env : Type := {
  directories : list string;
  opened : list string;
  logger : Logger
}.

End Logging.

Definition log_format : string :=
  "%(asctime)s - %(name)s - %(levelname)s - %(message)s".

(** [Path(d).mkdir(exist_ok=True)] *)
Definition mkdir_exist_ok (d : string) (dirs : list string) : list string :=
  if existsb (String.eqb d) dirs then dirs else (dirs ++ [d])%list.

(** [setup_logging]; [timestamp] is [datetime.now().strftime("%Y%m%d")]. *)
Definition setup_logging (timestamp : string) (env : Logging.Env) : Logging.Env :=
  let directories := mkdir_exist_ok "logs" (Logging.directories env) in
  let log_filename := "logs/application_logs_" ++ timestamp ++ ".log" in
  match Logging.handlers (Logging.logger env) with
  | [] =>
      {| Logging.directories := directories;
         Logging.opened := (Logging.opened env ++ [log_filename])%list;
         Logging.logger :=
           {| Logging.level := Some INFO;
              Logging.handlers :=
                [ Logging.FileHandler log_filename INFO log_format;
                  Logging.StreamHandler INFO log_format ] |} |}
  | _ :: _ =>
      {| Logging.directories := directories;
         Logging.opened := Logging.opened env;
         Logging.logger :=
           {| Logging.level := Some INFO;
              Logging.handlers := Logging.handlers (Logging.logger env) |} |}
  end.

(** ** Scripts: standard output, exceptions and [sys.exit] *)

Module Script.

(** How a piece of a script ends: with a value, with an exception, or with
    [SystemExit], which no [except Exception] catches. *)
Inductive outcome (A : Type) : Type :=
| Done (a : A)
| Raised (e : exn)
| Exited (code : nat).
Arguments Done {A} a.
Arguments Raised {A} e.
Arguments Exited {A} code.

(** A computation over the lines printed so far. *)
Definition t (A : Type) : Type := list string -> outcome A * list string.

Definition ret {A : Type} (a : A) : t A := fun out => (Done a, out).

Definition raise {A : Type} (e : exn) : t A := fun out => (Raised e, out).

(** [sys.exit(code)] *)
Definition exit {A : Type} (code : nat) : t A := fun out => (Exited code, out).

Definition bind {A B : Type} (m : t A) (f : A -> t B) : t B :=
  fun out =>
    match m out with
    | (Done a, out') => f a out'
    | (Raised e, out') => (Raised e, out')
    | (Exited code, out') => (Exited code, out')
    end.

(** [try: m  except Exception as e: h e] *)
Definition try_except {A : Type} (m : t A) (h : exn -> t A) : t A :=
  fun out =>
    match m out with
    | (Raised e, out') => h e out'
    | other => other
    end.

Definition print (line : string) : t unit :=
  fun out => (Done tt, (out ++ [line])%list).

Definition of_result {A : Type} (r : result A) : t A :=
  match r with
  | Ok a => ret a
  | Raise e => raise e
  end.

End Script.

Declare Scope script_scope.
Delimit Scope script_scope with script.
Notation "x <- c1 ;; c2" := (Script.bind c1 (fun x => c2))
  (at level 61, c1 at next level, right associativity) : script_scope.
Notation "c1 ;; c2" := (Script.bind c1 (fun _ => c2))
  (at level 61, right associativity) : script_scope.

(** [s * n] *)
Fixpoint str_repeat (s : string) (n : nat) : string :=
  match n with
  | O => EmptyString
  | S n' => s ++ str_repeat s n'
  end.

(** ** [process_documents.py] *)

Inductive Loader : Type := PyPDFLoader | TextLoader | Docx2txtLoader.

Definition supported_extensions : list string := [".pdf"; ".txt"; ".docx"].

(** The loader chosen by the [if]/[elif] chain on the lower-cased suffix;
    [None] stands for a suffix that no branch takes. *)
Definition loader_for (ext : string) : option Loader :=
  if String.eqb ext ".pdf" then Some PyPDFLoader
  else if String.eqb ext ".txt" then Some TextLoader
  else if String.eqb ext ".docx" then Some Docx2txtLoader
  else None.

(** The keys that [load_documents] writes into the metadata of a page. *)
Definition file_metadata (file_path : PyPath.t) : list (string * string) :=
  [ ("source", PyPath.str file_path);
    ("filename", PyPath.name file_path);
    ("file_type", PyPath.suffix file_path) ].

Definition add_metadata (file_path : PyPath.t) (doc : Document) : Document :=
  {| page_content := page_content doc;
     metadata := PyDict.update (file_metadata file_path) (metadata doc) |}.

Section Ingestion.

Local Open Scope script_scope.

Context {Vec : Type}.

(** What ingestion relies on: the document loaders, the text splitter, and
    the index built from the chunks and the embedding model. *)
Record Tools : Type := {
  loader_load : Loader -> string -> result (list Document);
  split_documents_with : list Document -> result (list Document);
  FAISS_from_documents : list Document -> result (FAISS Vec);
  save_local : FAISS Vec -> string -> result unit
}.

Context (tools : Tools).

(** The body of the loop of [load_documents] for one entry. *)
Definition load_file (file_path : PyPath.t) (documents : list Document)
  : Script.t (list Document) :=
  let ext := PyStr.lower (PyPath.suffix file_path) in
  if existsb (String.eqb ext) supported_extensions then
    Script.try_except
      (Script.print ("Loading " ++ PyPath.name file_path ++ "...") ;;
       loader <- match loader_for ext with
                 | Some l => Script.ret l
                 | None => Script.raise
                             (Exception "local variable 'loader' referenced before assignment")
                 end ;;
       docs <- Script.of_result (loader_load tools loader (PyPath.str file_path)) ;;
       let docs := map (add_metadata file_path) docs in
       let documents := (documents ++ docs)%list in
       Script.print ("✅ Loaded " ++ PyStr.str_of_nat (length docs)
                     ++ " pages from " ++ PyPath.name file_path) ;;
       Script.ret documents)
      (fun e =>
         Script.print ("❌ Could not load " ++ PyPath.name file_path
                       ++ ": " ++ str_exn e) ;;
         Script.ret documents)
  else Script.ret documents.

Fixpoint load_files (entries : list PyPath.t) (documents : list Document)
  : Script.t (list Document) :=
  match entries with
  | [] => Script.ret documents
  | file_path :: rest =>
      documents <- load_file file_path documents ;;
      load_files rest documents
  end.

(** [DocumentProcessor.load_documents] *)
Definition load_documents (folder_path : string) (folder : Folder)
  : Script.t (list Document) :=
  match folder with
  | None => Script.raise (Exception ("Folder " ++ folder_path ++ " not found"))
  | Some entries =>
      documents <- load_files entries [] ;;
      match documents with
      | [] => Script.raise (Exception "No documents were successfully loaded")
      | _ :: _ => Script.ret documents
      end
  end.

(** The pages that one entry of the folder adds to the result: those of a
    supported file that loads, with the metadata of the file. *)
Definition loaded_pages (file_path : PyPath.t) : list Document :=
  let ext := PyStr.lower (PyPath.suffix file_path) in
  if existsb (String.eqb ext) supported_extensions then
    match loader_for ext with
    | Some loader =>
        match loader_load tools loader (PyPath.str file_path) with
        | Ok docs => map (add_metadata file_path) docs
        | Raise _ => []
        end
    | None => []
    end
  else [].

(** [DocumentProcessor.split_documents] *)
Definition split_documents (documents : list Document) : Script.t (list Document) :=
  Script.print "Splitting documents into chunks..." ;;
  chunks <- Script.of_result (split_documents_with tools documents) ;;
  Script.print ("✅ Created " ++ PyStr.str_of_nat (length chunks) ++ " chunks") ;;
  Script.ret chunks.

(** [DocumentProcessor.create_vector_store]; the saved index is returned. *)
Definition create_vector_store (chunks : list Document) : Script.t (FAISS Vec) :=
  Script.print "Creating vector embeddings..." ;;
  vectorstore <- Script.of_result (FAISS_from_documents tools chunks) ;;
  Script.of_result (save_local tools vectorstore "vectorstore") ;;
  Script.print "✅ Vector store saved to 'vectorstore' directory" ;;
  Script.ret vectorstore.

(** [DocumentProcessor.__init__] *)
Definition DocumentProcessor_init (OPENAI_API_KEY : option string) : Script.t unit :=
  if getenv_truthy OPENAI_API_KEY then Script.ret tt
  else Script.raise
         (Exception "OPENAI_API_KEY not found. Please set it in your .env file.").

(** [main] of [process_documents.py]; on success the index that was saved. *)
Definition process_documents_main (OPENAI_API_KEY : option string) (data : Folder)
  : Script.t (FAISS Vec) :=
  Script.print "🏛️ Ilocano Constitution Document Processor" ;;
  Script.print (str_repeat "=" 50) ;;
  Script.try_except
    (files <- match data with
              | None =>
                  Script.print "❌ 'data' folder not found!" ;;
                  Script.print "Please create a 'data' folder and add your documents." ;;
                  Script.exit 1
              | Some files => Script.ret files
              end ;;
     match files with
     | [] =>
         Script.print "❌ No files found in 'data' folder!" ;;
         Script.print "Please add PDF, TXT, or DOCX files to the 'data' folder." ;;
         Script.exit 1
     | _ :: _ => Script.ret tt
     end ;;
     Script.print ("📁 Found " ++ PyStr.str_of_nat (length files)
                   ++ " files in data folder") ;;
     DocumentProcessor_init OPENAI_API_KEY ;;
     documents <- load_documents "data" data ;;
     Script.print ("📄 Total documents loaded: "
                   ++ PyStr.str_of_nat (length documents)) ;;
     chunks <- split_documents documents ;;
     vectorstore <- create_vector_store chunks ;;
     Script.print (PyStr.nl ++ "🎉 Document processing completed successfully!") ;;
     Script.print "You can now run the Streamlit app: streamlit run app.py" ;;
     Script.ret vectorstore)
    (fun e =>
       Script.print ("❌ Error processing documents: " ++ str_exn e) ;;
       Script.exit 1).

End Ingestion.

(** ** [run.py] *)

(** The [import] statements of [check_requirements], in order. *)
Definition required_packages : list string :=
  ["streamlit"; "langchain"; "openai"; "faiss"].

(** The imports in order: [import_error package] is [None] when the import
    succeeds and the [name] of its [ImportError] otherwise.  The first
    failure ends the block. *)
Fixpoint first_import_error (import_error : string -> option string)
         (packages : list string) : option string :=
  match packages with
  | [] => None
  | package :: rest =>
      match import_error package with
      | Some name => Some name
      | None => first_import_error import_error rest
      end
  end.

(** [check_requirements] *)
Definition check_requirements (OPENAI_API_KEY : option string) (data : Folder)
           (import_error : string -> option string) : list string :=
  let issues := [] in
  let issues :=
    if getenv_truthy OPENAI_API_KEY then issues
    else (issues ++ ["❌ OPENAI_API_KEY environment variable not set"])%list in
  let issues :=
    match data with
    | None => (issues ++ ["❌ 'data' folder not found"])%list
    | Some [] => (issues ++ ["⚠️  'data' folder is empty - add some documents"])%list
    | Some (_ :: _) => issues
    end in
  let issues :=
    match first_import_error import_error required_packages with
    | Some name => (issues ++ [("❌ Missing required package: " ++ name)%string])%list
    | None => issues
    end in
  issues.

(** How [subprocess.run(["streamlit", "run", "app.py"], check=True)] ends:
    normally, with one of the two exceptions that [main] handles, or with
    another one, such as the command not being found. *)
Inductive Subprocess : Type :=
| Completed
| CalledProcessError
| KeyboardInterrupt
| OtherError (e : exn).

Record Launch : Type := {
  printed : list string;
  commands : list (list string);
  uncaught : option exn
}.

(** [main] of [run.py]: what it prints, the commands it runs, and the
    exception that leaves it, if any. *)
Definition run_main (OPENAI_API_KEY : option string) (data : Folder)
           (import_error : string -> option string) (streamlit : Subprocess)
  : Launch :=
  let out := ["🏛️ Ilocano Constitution RAG Chatbot"; str_repeat "=" 40] in
  match check_requirements OPENAI_API_KEY data import_error with
  | (_ :: _) as issues =>
      {| printed := (out ++ ["Issues found:"]
                     ++ map (fun issue => ("  " ++ issue)%string) issues
                     ++ [(PyStr.nl ++ "Please fix these issues before running the application.")%string;
                         "See README.md for setup instructions."])%list;
         commands := [];
         uncaught := None |}
  | [] =>
      let out := (out ++ ["✅ All requirements met!";
                          "🚀 Starting Streamlit application..."])%list in
      {| printed :=
           match streamlit with
           | Completed | OtherError _ => out
           | CalledProcessError => (out ++ ["❌ Error running Streamlit application"])%list
           | KeyboardInterrupt =>
               (out ++ [(PyStr.nl ++ "👋 Application stopped by user")%string])%list
           end;
         commands := [["streamlit"; "run"; "app.py"]];
         uncaught :=
           match streamlit with
           | OtherError e => Some e
           | _ => None
           end |}
  end.

(** ** [app.py]: a session of chat turns *)



(** ** Sample folders and tools *)

Module Sample.

Definition entry (name : string) (is_file : bool) : PyPath.t :=
  {| PyPath.name := name; PyPath.str := "data/" ++ name; PyPath.is_file := is_file |}.

(** A folder with a PDF in capitals, a Word file, a Markdown file, a
    sub-folder and a text file. *)
Definition data : list PyPath.t :=
  [ entry "Constitution.PDF" true; entry "broken.docx" true;
    entry "notes.md" true; entry "drafts" false; entry "bill.txt" true ].

Definition page (text : string) : Document :=
  {| page_content := text; metadata := [("page", "0")] |}.

(** Tools whose PDF loader gives two pages, whose text loader gives one, and
    whose Word loader fails; the splitter keeps the pages as they are. *)
Definition tools : @Tools unit :=
  {| loader_load := fun loader _ =>
       match loader with
       | PyPDFLoader => Ok [page "Article I"; page "Article II"]
       | TextLoader => Ok [page "Bill of rights"]
       | Docx2txtLoader => Raise (Exception "File is not a zip file")
       end;
     split_documents_with := fun documents => Ok documents;
     FAISS_from_documents := fun chunks => Ok {| ranked := fun _ => Ok chunks |};
     save_local := fun _ _ => Ok tt |}.

End Sample.

(** * Properties *)

(** ** Substrings and lower-casing *)

Section StringFacts.

Lemma prefix_iff_append (p s : string) :
  prefix p s = true <-> exists t, s = p ++ t.
Proof.
  revert s; induction p as [|a p IH]; intros s.
  - destruct s; simpl; (split; [intros _; eexists; reflexivity | reflexivity]).
  - destruct s as [|b s]; simpl.
    + split; [discriminate | intros [t Ht]; discriminate].
    + destruct (ascii_dec a b) as [->|Hne].
      * split.
        -- intros H. apply IH in H. destruct H as [t Ht]. exists t. now rewrite Ht.
        -- intros [t Ht]. apply IH. exists t. now inversion Ht.
      * split; [discriminate | intros [t Ht]; inversion Ht; subst; now contradiction Hne].
Qed.

Lemma contains_empty (sub : string) :
  PyStr.contains sub "" = prefix sub "" || false.
Proof. reflexivity. Qed.

Lemma contains_step (sub : string) (c : ascii) (s : string) :
  PyStr.contains sub (String c s) = prefix sub (String c s) || PyStr.contains sub s.
Proof. reflexivity. Qed.

Lemma contains_iff_infix (sub s : string) :
  PyStr.contains sub s = true <-> exists pre post, s = pre ++ sub ++ post.
Proof.
  induction s as [|c s IH].
  - rewrite contains_empty, orb_false_r, prefix_iff_append. split.
    + intros [t Ht]. exists "", t. exact Ht.
    + intros (pre & post & H). destruct pre; simpl in H.
      * exists post. exact H.
      * discriminate.
  - rewrite contains_step, orb_true_iff, prefix_iff_append, IH. split.
    + intros [[t Ht] | (pre & post & H)].
      * exists "", t. exact Ht.
      * exists (String c pre), post. simpl. now rewrite H.
    + intros (pre & post & H). destruct pre as [|a pre]; simpl in H.
      * left. exists post. exact H.
      * right. inversion H. now exists pre, post.
Qed.

Lemma lower_append (a b : string) :
  PyStr.lower (a ++ b) = PyStr.lower a ++ PyStr.lower b.
Proof. induction a as [|c a IH]; simpl; [reflexivity | now rewrite IH]. Qed.

Lemma is_ilocano_true_iff (query : string) :
  is_ilocano query = true <->
  exists marker, In marker ilocano_indicators /\
                 PyStr.contains marker (PyStr.lower query) = true.
Proof. unfold is_ilocano. now rewrite existsb_exists. Qed.

End StringFacts.

(** C3. The language detector answers true exactly when the lower-cased
    input has one of the eighteen marker tokens as a substring, wherever it
    stands in the input: true for every input that contains a marker (in any
    letter case), false for every input that contains none. *)
Theorem language_detector_substring_match :
  length ilocano_indicators = 18 /\
  (forall query marker pre post,
      In marker ilocano_indicators ->
      PyStr.lower query = pre ++ marker ++ post ->
      is_ilocano query = true) /\
  (forall query pre occurrence post,
      In (PyStr.lower occurrence) ilocano_indicators ->
      query = pre ++ occurrence ++ post ->
      is_ilocano query = true) /\
  (forall query,
      (forall marker pre post,
          In marker ilocano_indicators ->
          PyStr.lower query <> pre ++ marker ++ post) ->
      is_ilocano query = false).
Proof.
  split; [reflexivity|]. split; [|split].
  - intros query marker pre post Hin Heq.
    apply is_ilocano_true_iff. exists marker. split; [exact Hin|].
    apply contains_iff_infix. now exists pre, post.
  - intros query pre occurrence post Hin ->.
    apply is_ilocano_true_iff. exists (PyStr.lower occurrence). split; [exact Hin|].
    apply contains_iff_infix.
    exists (PyStr.lower pre), (PyStr.lower post).
    now rewrite !lower_append.
  - intros query Hnone.
    destruct (is_ilocano query) eqn:E; [exfalso | reflexivity].
    apply is_ilocano_true_iff in E. destruct E as (marker & Hin & Hc).
    apply contains_iff_infix in Hc. destruct Hc as (pre & post & Heq).
    exact (Hnone marker pre post Hin Heq).
Qed.

(** ** Traces *)

Section TraceFacts.

Lemma llm_calls_app (a b : list Event) :
  llm_calls (a ++ b) = (llm_calls a ++ llm_calls b)%list.
Proof.
  induction a as [|ev a IH]; simpl; [reflexivity|].
  destruct ev; simpl; now rewrite IH.
Qed.

Lemma embed_calls_app (a b : list Event) :
  embed_calls (a ++ b) = (embed_calls a ++ embed_calls b)%list.
Proof.
  induction a as [|ev a IH]; simpl; [reflexivity|].
  destruct ev; simpl; now rewrite IH.
Qed.

Lemma nodes_run_app (a b : list Event) :
  nodes_run (a ++ b) = (nodes_run a ++ nodes_run b)%list.
Proof.
  induction a as [|ev a IH]; simpl; [reflexivity|].
  destruct ev; simpl; now rewrite IH.
Qed.

End TraceFacts.

Create Rewrite HintDb trace.
#[local] Hint Rewrite llm_calls_app embed_calls_app nodes_run_app
  app_nil_r app_assoc : trace.

(** Unfolds the monadic operations down to functions on worlds. *)
Ltac run_monad :=
  unfold chain_invoke, llm_invoke, retriever_invoke, embeddings_embed_query,
    logger_info, logger_error, try_except, bind, ret, raise, emit, of_result,
    record in *;
  simpl provider_state in *; simpl trace in *.

(** ** The prompt templates always format *)

Section Templates.

Lemma translation_prompt_formats (query : string) :
  exists text,
    PromptTemplate.format translation_prompt
      [("query", query); ("language", "English")] = Ok text.
Proof.
  destruct (PromptTemplate.format translation_prompt
              [("query", query); ("language", "English")]) as [text|e] eqn:E.
  - now exists text.
  - vm_compute in E. discriminate E.
Qed.

Lemma rag_prompt_formats (context question : string) :
  exists text,
    PromptTemplate.format rag_prompt
      [("context", context); ("question", question)] = Ok text.
Proof.
  destruct (PromptTemplate.format rag_prompt
              [("context", context); ("question", question)]) as [text|e] eqn:E.
  - now exists text.
  - vm_compute in E. discriminate E.
Qed.

(** The answer template is fixed text around its two fields, and formatting
    puts the values where the fields stand. *)
Lemma rag_prompt_splits :
  exists head middle tail,
    PromptTemplate.template rag_prompt =
      head ++ "{context}" ++ middle ++ "{question}" ++ tail /\
    forall context question,
      PromptTemplate.format rag_prompt
        [("context", context); ("question", question)]
      = Ok (head ++ context ++ middle ++ question ++ tail).
Proof.
  pose (t := PromptTemplate.template rag_prompt).
  pose (i := match index 0 "{context}" t with Some i => i | None => 0 end).
  pose (j := match index 0 "{question}" t with Some j => j | None => 0 end).
  exists (substring 0 i t), (substring (i + 9) (j - (i + 9)) t),
         (substring (j + 10) (String.length t - (j + 10)) t).
  split; [vm_compute; reflexivity|].
  intros context question. vm_compute. reflexivity.
Qed.

End Templates.

(** ** The three stages *)

Section Stages.

Context {PS Vec : Type} (P : Providers PS Vec).

(** Translate always returns, and writes [translated_query] only. *)
Lemma translate_node_returns (self : RAGSystem PS Vec) (state : GraphState.t)
      (w : World PS) :
  exists v w',
    translate_node P self state w =
      (Ok (GraphState.set_translated_query v state), w') /\
    nodes_run (trace w') = nodes_run (trace w).
Proof.
  unfold translate_node.
  destruct (is_ilocano (GraphState.query state)).
  - destruct (translation_prompt_formats (GraphState.query state)) as [text Ht].
    run_monad. rewrite Ht.
    destruct (chat_completions P (llm self) text (provider_state w))
      as [[m|e] st]; eexists; eexists; (split; [reflexivity|]);
      simpl; autorewrite with trace; reflexivity.
  - exists (GraphState.query state), w. now split.
Qed.

(** Retrieve always returns, and writes [context] and [source_docs] only. *)
Lemma retrieve_node_returns (self : RAGSystem PS Vec) (state : GraphState.t)
      (w : World PS) :
  exists c docs w',
    retrieve_node P self state w =
      (Ok (GraphState.set_source_docs docs (GraphState.set_context c state)), w') /\
    nodes_run (trace w') = nodes_run (trace w).
Proof.
  unfold retrieve_node.
  destruct (retriever self) as [r|].
  - run_monad.
    destruct (embed_query P (GraphState.translated_query state) (provider_state w))
      as [[v|e] st].
    + destruct (ranked (vectorstore_of r) v) as [docs|e];
        eexists; eexists; eexists; (split; [reflexivity|]);
        simpl; autorewrite with trace; reflexivity.
    + eexists; eexists; eexists; (split; [reflexivity|]);
        simpl; autorewrite with trace; reflexivity.
  - eexists; eexists; exists w. now split.
Qed.

(** Generate always returns, and writes [answer] only. *)
Lemma generate_node_returns (self : RAGSystem PS Vec) (state : GraphState.t)
      (w : World PS) :
  exists a w',
    generate_node P self state w = (Ok (GraphState.set_answer a state), w') /\
    nodes_run (trace w') = nodes_run (trace w).
Proof.
  unfold generate_node.
  destruct (rag_prompt_formats (GraphState.context state) (GraphState.query state))
    as [text Ht].
  run_monad. rewrite Ht.
  destruct (chat_completions P (llm self) text (provider_state w))
    as [[m|e] st]; eexists; eexists; (split; [reflexivity|]);
    simpl; autorewrite with trace; reflexivity.
Qed.

(** What one call of Generate does: one chat-model call on the formatted
    answer prompt, and the answer of the model, or the error text, stored. *)
Lemma generate_node_runs (self : RAGSystem PS Vec) (state : GraphState.t)
      (w : World PS) :
  exists prompt w',
    PromptTemplate.format rag_prompt
      [("context", GraphState.context state);
       ("question", GraphState.query state)] = Ok prompt /\
    llm_calls (trace w') = (llm_calls (trace w) ++ [(llm self, prompt)])%list /\
    generate_node P self state w =
      (Ok (GraphState.set_answer
             match fst (chat_completions P (llm self) prompt (provider_state w)) with
             | Ok response => content response
             | Raise e => "Error generating response: " ++ str_exn e
             end
             state), w').
Proof.
  destruct (rag_prompt_formats (GraphState.context state) (GraphState.query state))
    as [prompt Hp].
  exists prompt. unfold generate_node. run_monad. rewrite Hp.
  destruct (chat_completions P (llm self) prompt (provider_state w))
    as [[m|e] st]; eexists; (split; [reflexivity|]);
    (split; [|reflexivity]); simpl; autorewrite with trace; reflexivity.
Qed.

(** The compiled workflow is the three stages in a row. *)
Lemma workflow_unfolds (self : RAGSystem PS Vec) (state : GraphState.t) :
  StateGraph.compile (workflow P self) state =
    (emit (NodeRun "translate") ;;
     s1 <- translate_node P self state ;;
     emit (NodeRun "retrieve") ;;
     s2 <- retrieve_node P self s1 ;;
     emit (NodeRun "generate") ;;
     s3 <- generate_node P self s2 ;;
     ret s3)%monad.
Proof. reflexivity. Qed.

End Stages.

(** ** The pipeline *)

Section Orchestration.

Context {PS Vec : Type} (P : Providers PS Vec).

(** A run of the compiled workflow goes through the three stages, each on
    the state the previous one left, and returns the state left by Generate. *)
Lemma workflow_stages (self : RAGSystem PS Vec) (state : GraphState.t)
      (w : World PS) :
  exists s1 w1 s2 w2 s3 w3,
    translate_node P self state (record (NodeRun "translate") w) = (Ok s1, w1) /\
    retrieve_node P self s1 (record (NodeRun "retrieve") w1) = (Ok s2, w2) /\
    generate_node P self s2 (record (NodeRun "generate") w2) = (Ok s3, w3) /\
    StateGraph.compile (workflow P self) state w = (Ok s3, w3) /\
    nodes_run (trace w3) =
      (nodes_run (trace w) ++ ["translate"; "retrieve"; "generate"])%list.
Proof.
  destruct (translate_node_returns P self state (record (NodeRun "translate") w))
    as (v & w1 & E1 & N1).
  destruct (retrieve_node_returns P self (GraphState.set_translated_query v state)
              (record (NodeRun "retrieve") w1)) as (c & docs & w2 & E2 & N2).
  destruct (generate_node_returns P self
              (GraphState.set_source_docs docs
                 (GraphState.set_context c
                    (GraphState.set_translated_query v state)))
              (record (NodeRun "generate") w2)) as (a & w3 & E3 & N3).
  do 6 eexists. split; [exact E1|]. split; [exact E2|]. split; [exact E3|]. split.
  - rewrite workflow_unfolds. unfold bind, emit, ret.
    now rewrite E1, E2, E3.
  - rewrite N3. simpl. rewrite nodes_run_app, N2. simpl.
    rewrite nodes_run_app, N1. simpl. rewrite nodes_run_app. simpl.
    now rewrite <- !app_assoc.
Qed.

End Orchestration.

(** C1. [query] returns a string for every question, whatever the system and
    the providers do; an exception that leaves the graph run is caught by the
    handler of [query], logged, and returned as the error string. *)
Theorem query_never_raises {PS Vec : Type} (self : RAGSystem PS Vec)
        (question : string) (w : World PS) :
  (exists answer w', query self question w = (Ok answer, w')) /\
  (forall r e w1,
      retriever self = Some r ->
      app_invoke self (initial_state question)
                 (record (Log INFO ("Processing query: " ++ question)) w)
        = (Raise e, w1) ->
      query self question w =
        (Ok ("Error processing query: " ++ str_exn e),
         record (Log ERROR ("Error processing query: " ++ str_exn e)) w1)).
Proof.
  unfold query. split.
  - destruct (retriever self) as [r|]; run_monad.
    + destruct (app_invoke self (initial_state question) _) as [[s|e] w1];
        eexists; eexists; reflexivity.
    + eexists; eexists; reflexivity.
  - intros r e w1 Hr Happ. rewrite Hr. run_monad. now rewrite Happ.
Qed.

(** C2. Without a retriever, [query] returns the fixed instruction for every
    question and leaves the world as it found it: no stage runs, no provider
    is called, nothing is logged. *)
Theorem query_without_index {PS Vec : Type} (self : RAGSystem PS Vec)
        (question : string) (w : World PS) :
  retriever self = None ->
  query self question w = (Ok not_loaded_message, w) /\
  nodes_run (trace (snd (query self question w))) = nodes_run (trace w) /\
  filter is_provider_call (trace (snd (query self question w))) =
    filter is_provider_call (trace w).
Proof.
  intros Hr. unfold query, try_except, ret. rewrite Hr. now repeat split.
Qed.

Section Construction.

Context {PS Vec : Type} (P : Providers PS Vec).

(** [__init__] returns only when the clients could be constructed. *)
Lemma RAGSystem_init_needs_key (OPENAI_API_KEY : option string)
      (disk : option (result (FAISS Vec))) (w w' : World PS)
      (self : RAGSystem PS Vec) :
  RAGSystem_init P OPENAI_API_KEY disk w = (Ok self, w') ->
  getenv_truthy OPENAI_API_KEY = true.
Proof.
  unfold RAGSystem_init, openai_client.
  destruct (getenv_truthy OPENAI_API_KEY); [reflexivity|].
  unfold bind, of_result. discriminate.
Qed.

(** What [__init__] builds when the credential is set: the fixed chat-model
    configuration, a retriever with [k = 5] exactly when the index was on
    disk and loaded, and the compiled workflow over the stages of the object. *)
Lemma RAGSystem_init_returns (OPENAI_API_KEY : option string)
      (disk : option (result (FAISS Vec))) (w : World PS) :
  getenv_truthy OPENAI_API_KEY = true ->
  exists self w',
    RAGSystem_init P OPENAI_API_KEY disk w = (Ok self, w') /\
    llm self = ChatOpenAI_config /\
    retriever self =
      match disk with
      | Some (Ok vs) => Some {| vectorstore_of := vs; search_k := 5 |}
      | _ => None
      end /\
    app self =
      Some (StateGraph.compile
              (workflow P {| llm := llm self; vectorstore := vectorstore self;
                             retriever := retriever self; app := None |})) /\
    filter is_provider_call (trace w') = filter is_provider_call (trace w).
Proof.
  intros Hkey.
  unfold RAGSystem_init, openai_client, load_vectorstore, setup_graph.
  rewrite Hkey. run_monad.
  destruct disk as [[vs|e]|]; simpl; do 2 eexists;
    (split; [reflexivity|]); simpl; repeat split;
    rewrite ?filter_app; simpl; now rewrite ?app_nil_r.
Qed.

End Construction.



(** C4, as the code has it.  The detector finds marker tokens in
    "What are citizen rights?" (the tokens "ti" and "iti" stand inside
    "citizen"), so Translate calls the chat model once with the translation
    prompt and stores the trimmed answer, or the question itself when the
    call raises.  A question in which the detector finds no marker is copied
    unchanged and the chat model is not called. *)
Theorem translate_citizen_rights {PS Vec : Type} (P : Providers PS Vec)
        (self : RAGSystem PS Vec) (w : World PS) :
  is_ilocano "What are citizen rights?" = true /\
  (exists prompt w',
      PromptTemplate.format translation_prompt
        [("query", "What are citizen rights?"); ("language", "English")] = Ok prompt /\
      llm_calls (trace w') = (llm_calls (trace w) ++ [(llm self, prompt)])%list /\
      translate_node P self (initial_state "What are citizen rights?") w =
        (Ok (GraphState.set_translated_query
               match fst (chat_completions P (llm self) prompt (provider_state w)) with
               | Ok translated => PyStr.strip (content translated)
               | Raise _ => "What are citizen rights?"
               end
               (initial_state "What are citizen rights?")), w')) /\
  (forall state,
      is_ilocano (GraphState.query state) = false ->
      translate_node P self state w =
        (Ok (GraphState.set_translated_query (GraphState.query state) state), w)).
Proof.
  split; [reflexivity|]. split.
  - destruct (translation_prompt_formats "What are citizen rights?") as [prompt Hp].
    exists prompt. unfold translate_node.
    change (is_ilocano (GraphState.query (initial_state "What are citizen rights?")))
      with true.
    cbv iota. run_monad.
    change (GraphState.query (initial_state "What are citizen rights?"))
      with "What are citizen rights?".
    rewrite Hp.
    destruct (chat_completions P (llm self) prompt (provider_state w))
      as [[m|e] st]; eexists; (split; [reflexivity|]);
      (split; [|reflexivity]); simpl; autorewrite with trace; reflexivity.
  - intros state Hno. unfold translate_node. now rewrite Hno.
Qed.

Lemma join_blank_line (texts : list string) :
  PyStr.join (PyStr.nl ++ PyStr.nl) texts =
    match texts with
    | [] => ""
    | text :: more =>
        text ++ fold_right
                  (fun next rest => String "010"%char (String "010"%char (next ++ rest)))
                  "" more
    end.
Proof.
  destruct texts as [|text more]; [reflexivity|].
  revert text. induction more as [|next more IH]; intros text.
  - simpl. induction text as [|c text IHt]; simpl; [reflexivity | now rewrite <- IHt].
  - change (PyStr.join (PyStr.nl ++ PyStr.nl) (text :: next :: more))
      with (text ++ (PyStr.nl ++ PyStr.nl)
            ++ PyStr.join (PyStr.nl ++ PyStr.nl) (next :: more)).
    rewrite IH. reflexivity.
Qed.

(** C6. With the index loaded at construction, Retrieve embeds
    [translated_query], takes the five most similar chunks in the order of
    the index, joins their texts with a blank line into [context] and keeps
    the same chunks, in the same order, as [source_docs]: at most five.  The
    context is the first text and then, for each further text, two newline
    characters and that text. *)
Theorem retrieve_top_five {PS Vec : Type} (P : Providers PS Vec)
        (OPENAI_API_KEY : option string)
        (vs : FAISS Vec) (w0 w1 : World PS) (self : RAGSystem PS Vec)
        (state : GraphState.t) (w : World PS)
        (v : Vec) (st : PS) (chunks : list Document) :
  RAGSystem_init P OPENAI_API_KEY (Some (Ok vs)) w0 = (Ok self, w1) ->
  embed_query P (GraphState.translated_query state) (provider_state w) = (Ok v, st) ->
  ranked vs v = Ok chunks ->
  exists w',
    retrieve_node P self state w =
      (Ok (GraphState.set_source_docs (firstn 5 chunks)
             (GraphState.set_context
                (PyStr.join (PyStr.nl ++ PyStr.nl)
                            (map page_content (firstn 5 chunks)))
                state)), w') /\
    PyStr.join (PyStr.nl ++ PyStr.nl) (map page_content (firstn 5 chunks)) =
      match map page_content (firstn 5 chunks) with
      | [] => ""
      | text :: more =>
          text ++ fold_right
                    (fun next rest =>
                       String "010"%char (String "010"%char (next ++ rest)))
                    "" more
      end /\
    embed_calls (trace w') =
      (embed_calls (trace w) ++ [GraphState.translated_query state])%list /\
    length (firstn 5 chunks) <= 5.
Proof.
  intros Hinit Hembed Hsearch.
  pose proof (RAGSystem_init_needs_key P _ _ _ _ _ Hinit) as Hkey.
  destruct (RAGSystem_init_returns P OPENAI_API_KEY (Some (Ok vs)) w0 Hkey)
    as (self' & w1' & Hinit' & _ & Hretr & _).
  rewrite Hinit in Hinit'. injection Hinit' as <- <-.
  unfold retrieve_node. rewrite Hretr. run_monad. simpl.
  rewrite Hembed, Hsearch.
  eexists. split; [reflexivity|]. split; [|split].
  - exact (join_blank_line (map page_content (firstn 5 chunks))).
  - simpl. autorewrite with trace. reflexivity.
  - exact (firstn_le_length 5 chunks).
Qed.

(** C7. Generate builds its prompt from the answer template, with [context]
    in the place of the context field and the original [query] in the place
    of the question field, calls the chat model once with the configuration
    of the object, and stores the answer of the model as it is, or the error
    string with the message of the exception.  An object that [__init__]
    returns has the configuration with temperature 0, top-p 0.9 and 1000
    tokens. *)
Theorem generate_node_spec {PS Vec : Type} (P : Providers PS Vec)
        (self : RAGSystem PS Vec) (state : GraphState.t) (w : World PS) :
  (exists head middle tail prompt w',
      PromptTemplate.template rag_prompt =
        head ++ "{context}" ++ middle ++ "{question}" ++ tail /\
      prompt =
        head ++ GraphState.context state ++ middle
        ++ GraphState.query state ++ tail /\
      PromptTemplate.format rag_prompt
        [("context", GraphState.context state);
         ("question", GraphState.query state)] = Ok prompt /\
      llm_calls (trace w') = (llm_calls (trace w) ++ [(llm self, prompt)])%list /\
      generate_node P self state w =
        (Ok (GraphState.set_answer
               match fst (chat_completions P (llm self) prompt (provider_state w)) with
               | Ok response => content response
               | Raise e => "Error generating response: " ++ str_exn e
               end
               state), w')) /\
  (forall OPENAI_API_KEY disk w0 built w1,
      RAGSystem_init P OPENAI_API_KEY disk w0 = (Ok built, w1) ->
      llm built = ChatOpenAI_config) /\
  temperature ChatOpenAI_config = 0%Q /\
  top_p ChatOpenAI_config = (9 # 10)%Q /\
  max_tokens ChatOpenAI_config = 1000.
Proof.
  split; [|split; [|now repeat split]].
  - destruct rag_prompt_splits as (head & middle & tail & Htemplate & Hformat).
    destruct (generate_node_runs P self state w) as (prompt & w' & Hp & Hcalls & Hrun).
    rewrite Hformat in Hp. injection Hp as <-.
    exists head, middle, tail. eexists. exists w'.
    split; [exact Htemplate|]. split; [reflexivity|].
    split; [apply Hformat|]. split; [exact Hcalls | exact Hrun].
  - intros key disk w0 built w1 Hinit.
    pose proof (RAGSystem_init_needs_key P _ _ _ _ _ Hinit) as Hkey.
    destruct (RAGSystem_init_returns P key disk w0 Hkey)
      as (built' & w1' & Hb & Hllm & _).
    rewrite Hinit in Hb. now injection Hb as <- <-.
Qed.

Lemma infix_after_char (c : ascii) (s T : string) :
  (exists pre post, s = pre ++ T ++ post) ->
  exists pre post, String c s = pre ++ T ++ post.
Proof. intros (pre & post & ->). now exists (String c pre), post. Qed.

(** C9. With an index of the single chunk [T] and a chat model that echoes
    its prompt, the run for "ania" ends with [context] equal to [T], and the
    answer that [query] returns contains [T]. *)
Theorem round_trip_one_chunk (T : string) :
  exists self w1 final w',
    RAGSystem_init Stub.echo Stub.key (Some (Ok (Stub.one_chunk T))) Stub.w0
      = (Ok self, w1) /\
    is_ilocano "ania" = true /\
    app_invoke self (initial_state "ania")
      (record (Log INFO "Processing query: ania") w1) = (Ok final, w') /\
    GraphState.context final = T /\
    GraphState.source_docs final =
      [ {| page_content := T; metadata := [("filename", "constitution.pdf")] |} ] /\
    query self "ania" w1 = (Ok (GraphState.answer final), w') /\
    exists pre post, GraphState.answer final = pre ++ T ++ post.
Proof.
  pose (built := RAGSystem_init Stub.echo Stub.key
                   (Some (Ok (Stub.one_chunk T))) Stub.w0).
  pose (self := match fst built with Ok s => s | Raise _ => Stub.unloaded end).
  pose (run := app_invoke self (initial_state "ania")
                 (record (Log INFO "Processing query: ania") (snd built))).
  exists self, (snd built),
         (match fst run with Ok final => final | Raise _ => initial_state "" end),
         (snd run).
  split; [reflexivity|]. split; [reflexivity|].
  split; [reflexivity|]. split; [reflexivity|].
  split; [reflexivity|]. split; [reflexivity|].
  cbv. repeat apply infix_after_char.
  exists "". eexists. reflexivity.
Qed.

(** ** The claims at concrete inputs *)

(** C4 as the specification words it does not hold: on
    "What are citizen rights?" with the echoing chat model, Translate does
    call the model and does not keep the question unchanged. *)
Lemma citizen_rights_is_sent_to_translation :
  ~ (exists s' w',
        translate_node Stub.echo Stub.unloaded
          (initial_state "What are citizen rights?") Stub.w0 = (Ok s', w') /\
        GraphState.translated_query s' = "What are citizen rights?" /\
        llm_calls (trace w') = []).
Proof.
  intros (s' & w' & Hrun & _ & Hcalls).
  vm_compute in Hrun. injection Hrun as <- <-.
  vm_compute in Hcalls. discriminate Hcalls.
Qed.

Lemma hello_has_no_marker (marker pre post : string) :
  In marker ilocano_indicators ->
  PyStr.lower "Hello, world" <> pre ++ marker ++ post.
Proof.
  intros Hin Heq.
  assert (PyStr.contains marker (PyStr.lower "Hello, world") = true) as Hc
    by (apply contains_iff_infix; now exists pre, post).
  simpl in Hin.
  repeat (destruct Hin as [<- | Hin]; [vm_compute in Hc; discriminate Hc|]).
  exact Hin.
Qed.

Lemma language_detector_substring_match_witness :
  is_ilocano "What are citizen rights?" = true /\
  is_ilocano "ANIA dayta?" = true /\
  is_ilocano "Hello, world" = false.
Proof.
  destruct language_detector_substring_match as (_ & Hlower & Hany & Hnone).
  split; [|split].
  - apply (Hlower "What are citizen rights?" "ti" "what are ci" "zen rights?").
    + simpl; tauto.
    + reflexivity.
  - apply (Hany "ANIA dayta?" "" "ANIA" " dayta?").
    + simpl; tauto.
    + reflexivity.
  - apply (Hnone "Hello, world"). exact hello_has_no_marker.
Defined.

Lemma query_never_raises_witness :
  retriever Stub.broken_graph
    = Some {| vectorstore_of := Stub.seven_chunks; search_k := 5 |} /\
  query Stub.broken_graph "ania" Stub.w0 =
    (Ok "Error processing query: graph run failed",
     {| provider_state := tt;
        trace := [ Log INFO "Processing query: ania";
                   Log ERROR "Error processing query: graph run failed" ] |}).
Proof.
  split; [reflexivity|].
  apply (proj2 (query_never_raises Stub.broken_graph "ania" Stub.w0)
               {| vectorstore_of := Stub.seven_chunks; search_k := 5 |}
               (Exception "graph run failed")
               (record (Log INFO "Processing query: ania") Stub.w0));
    reflexivity.
Defined.

Lemma query_without_index_witness :
  retriever Stub.unloaded = None /\
  query Stub.unloaded "Ania dagiti karbengan ti umili?" Stub.w0 =
    (Ok "Vector store not loaded. Please run `python process_documents.py` first.",
     Stub.w0).
Proof.
  split; [reflexivity|].
  apply (query_without_index Stub.unloaded "Ania dagiti karbengan ti umili?" Stub.w0).
  reflexivity.
Defined.

Lemma translate_citizen_rights_witness :
  is_ilocano "What are my rights?" = false /\
  translate_node Stub.echo Stub.unloaded (initial_state "What are my rights?") Stub.w0 =
    (Ok {| GraphState.query := "What are my rights?";
           GraphState.translated_query := "What are my rights?";
           GraphState.context := "";
           GraphState.answer := "";
           GraphState.source_docs := [] |}, Stub.w0).
Proof.
  split; [reflexivity|].
  apply (proj2 (proj2 (translate_citizen_rights Stub.echo Stub.unloaded Stub.w0))
               (initial_state "What are my rights?")).
  reflexivity.
Defined.

Lemma retrieve_top_five_witness :
  exists self w1 w',
    RAGSystem_init Stub.echo Stub.key (Some (Ok Stub.seven_chunks)) Stub.w0
      = (Ok self, w1) /\
    retrieve_node Stub.echo self
      (GraphState.set_translated_query "citizen rights" (initial_state "ania")) Stub.w0 =
      (Ok {| GraphState.query := "ania";
             GraphState.translated_query := "citizen rights";
             GraphState.context :=
               "chunk 1" ++ String "010"%char (String "010"%char
               ("chunk 2" ++ String "010"%char (String "010"%char
               ("chunk 3" ++ String "010"%char (String "010"%char
               ("chunk 4" ++ String "010"%char (String "010"%char
                "chunk 5")))))));
             GraphState.answer := "";
             GraphState.source_docs := map Stub.chunk [1; 2; 3; 4; 5] |}, w') /\
    embed_calls (trace w') = ["citizen rights"].
Proof.
  pose (built := RAGSystem_init Stub.echo Stub.key
                   (Some (Ok Stub.seven_chunks)) Stub.w0).
  exists (match fst built with Ok s => s | Raise _ => Stub.unloaded end),
         (snd built).
  assert (RAGSystem_init Stub.echo Stub.key (Some (Ok Stub.seven_chunks)) Stub.w0
          = (Ok (match fst built with Ok s => s | Raise _ => Stub.unloaded end),
             snd built)) as Hinit by reflexivity.
  destruct (retrieve_top_five Stub.echo Stub.key Stub.seven_chunks Stub.w0 _ _
              (GraphState.set_translated_query "citizen rights" (initial_state "ania"))
              Stub.w0 tt tt (map Stub.chunk [1; 2; 3; 4; 5; 6; 7])
              Hinit eq_refl eq_refl) as (w' & Hrun & Hjoin & Hcalls & _).
  exists w'. split; [exact Hinit|]. split; [|exact Hcalls].
  rewrite Hjoin in Hrun. exact Hrun.
Defined.

Lemma generate_node_spec_witness :
  exists w',
    generate_node Stub.echo Stub.offline
      (GraphState.set_context "Art. III" (initial_state "ania")) Stub.w0 =
      (Ok (GraphState.set_answer
             match PromptTemplate.format rag_prompt
                     [("context", "Art. III"); ("question", "ania")] with
             | Ok prompt => prompt
             | Raise _ => ""
             end
             (GraphState.set_context "Art. III" (initial_state "ania"))), w') /\
    PyStr.contains "Art. III" 
      match PromptTemplate.format rag_prompt
              [("context", "Art. III"); ("question", "ania")] with
      | Ok prompt => prompt
      | Raise _ => ""
      end = true.
Proof.
  destruct (proj1 (generate_node_spec Stub.echo Stub.offline
                     (GraphState.set_context "Art. III" (initial_state "ania"))
                     Stub.w0))
    as (head & middle & tail & prompt & w' & _ & _ & Hformat & _ & Hrun).
  exists w'. split; [|reflexivity].
  rewrite Hrun. simpl GraphState.context. simpl GraphState.query.
  simpl GraphState.context in Hformat. simpl GraphState.query in Hformat.
  rewrite Hformat. reflexivity.
Defined.


(** * More of the code *)

(** ** Strings, continued *)

Section MoreStringFacts.

Lemma str_app_assoc (a b c : string) : (a ++ b) ++ c = a ++ b ++ c.
Proof. induction a as [|x a IH]; simpl; [reflexivity | now rewrite IH]. Qed.

Lemma str_app_nil_r (a : string) : a ++ "" = a.
Proof. induction a as [|x a IH]; simpl; [reflexivity | now rewrite IH]. Qed.

Lemma contains_trans (a b c : string) :
  PyStr.contains a b = true -> PyStr.contains b c = true ->
  PyStr.contains a c = true.
Proof.
  rewrite !contains_iff_infix.
  intros (p1 & q1 & ->) (p2 & q2 & ->).
  exists (p2 ++ p1), (q1 ++ q2). now rewrite !str_app_assoc.
Qed.

Lemma contains_in_context (sub s pre post : string) :
  PyStr.contains sub s = true -> PyStr.contains sub (pre ++ s ++ post) = true.
Proof.
  rewrite !contains_iff_infix.
  intros (p & q & ->). exists (pre ++ p), (q ++ post). now rewrite !str_app_assoc.
Qed.

Lemma lstrip_head (s : string) (c : ascii) (rest : string) :
  PyStr.lstrip s = String c rest -> PyStr.isspace c = false.
Proof.
  induction s as [|a s IH]; simpl; [discriminate|].
  destruct (PyStr.isspace a) eqn:E; [exact IH|].
  intros H. now inversion H; subst.
Qed.

Lemma lstrip_fixed (s : string) :
  match s with
  | EmptyString => True
  | String c _ => PyStr.isspace c = false
  end -> PyStr.lstrip s = s.
Proof. destruct s as [|c s]; simpl; [reflexivity | now intros ->]. Qed.

Lemma rstrip_step (a : ascii) (t : string) :
  PyStr.rstrip (String a t) =
    match PyStr.rstrip t with
    | EmptyString => if PyStr.isspace a then EmptyString else String a EmptyString
    | String b u => String a (String b u)
    end.
Proof. reflexivity. Qed.

Lemma rstrip_keeps_head (s : string) (c : ascii) (rest : string) :
  PyStr.rstrip s = String c rest -> exists rest', s = String c rest'.
Proof.
  destruct s as [|a t]; [discriminate|]. rewrite rstrip_step.
  destruct (PyStr.rstrip t) as [|b u].
  - destruct (PyStr.isspace a); [discriminate|].
    intros H. inversion H; subst. now exists t.
  - intros H. inversion H; subst. now exists t.
Qed.

Lemma rstrip_last (s pre : string) (c : ascii) :
  PyStr.rstrip s = pre ++ String c "" -> PyStr.isspace c = false.
Proof.
  revert pre. induction s as [|a t IH]; intros pre.
  - destruct pre; discriminate.
  - rewrite rstrip_step. destruct (PyStr.rstrip t) as [|b u] eqn:E.
    + destruct (PyStr.isspace a) eqn:Ea.
      * destruct pre; discriminate.
      * destruct pre as [|x pre]; simpl; intros H; inversion H; subst.
        -- exact Ea.
        -- destruct pre; discriminate.
    + destruct pre as [|x pre]; simpl; intros H; inversion H; subst.
      now apply (IH pre).
Qed.

Lemma rstrip_idempotent (s : string) :
  PyStr.rstrip (PyStr.rstrip s) = PyStr.rstrip s.
Proof.
  induction s as [|a t IH]; [reflexivity|].
  rewrite rstrip_step. destruct (PyStr.rstrip t) as [|b u] eqn:E.
  - destruct (PyStr.isspace a) eqn:Ea; [reflexivity|].
    rewrite rstrip_step. simpl. now rewrite Ea.
  - rewrite rstrip_step, IH. reflexivity.
Qed.

Lemma strip_head (s : string) (c : ascii) (rest : string) :
  PyStr.strip s = String c rest -> PyStr.isspace c = false.
Proof.
  unfold PyStr.strip. intros H.
  destruct (rstrip_keeps_head _ _ _ H) as [rest' H'].
  exact (lstrip_head _ _ _ H').
Qed.

Lemma strip_idempotent (s : string) : PyStr.strip (PyStr.strip s) = PyStr.strip s.
Proof.
  unfold PyStr.strip at 1.
  rewrite lstrip_fixed.
  - unfold PyStr.strip. apply rstrip_idempotent.
  - destruct (PyStr.strip s) as [|c rest] eqn:E; [exact I|].
    exact (strip_head _ _ _ E).
Qed.

End MoreStringFacts.

(** X1. Text around a question never turns the detector off: a question
    that the detector takes for Ilocano is still taken for Ilocano inside any
    longer text. *)
Theorem is_ilocano_in_context (query pre post : string) :
  is_ilocano query = true -> is_ilocano (pre ++ query ++ post) = true.
Proof.
  rewrite !is_ilocano_true_iff. intros (marker & Hin & Hc).
  exists marker. split; [exact Hin|].
  rewrite !lower_append. now apply contains_in_context.
Qed.

Lemma is_ilocano_in_context_witness :
  is_ilocano "Ania" = true /\ is_ilocano ("Q: " ++ "Ania" ++ " dayta?") = true.
Proof.
  split; [reflexivity|]. apply is_ilocano_in_context. reflexivity.
Defined.

(** X2. Four of the eighteen markers never decide: "iti", "dagiti",
    "kadagiti" and "konstitusion" each contain "ti", so the detector answers
    the same with the other fourteen alone. *)
Theorem is_ilocano_fourteen_markers (query : string) :
  is_ilocano query =
    existsb (fun indicator => PyStr.contains indicator (PyStr.lower query))
      [ "ti"; "ken"; "wenno"; "ania"; "sadino"; "kasano"; "apay"; "kayat";
        "mabalin"; "saan"; "adda"; "awan"; "agsaludsod"; "maipapan" ].
Proof.
  unfold is_ilocano, ilocano_indicators.
  set (has := fun indicator => PyStr.contains indicator (PyStr.lower query)).
  assert (forall longer, PyStr.contains "ti" longer = true ->
                         has longer = true -> has "ti" = true) as Hti.
  { intros longer Hsub Hl. unfold has in *. exact (contains_trans _ _ _ Hsub Hl). }
  pose proof (Hti "iti" eq_refl) as H1.
  pose proof (Hti "dagiti" eq_refl) as H2.
  pose proof (Hti "kadagiti" eq_refl) as H3.
  pose proof (Hti "konstitusion" eq_refl) as H4.
  simpl.
  destruct (has "ti"); [reflexivity|].
  destruct (has "iti"); [now discriminate H1|].
  destruct (has "dagiti"); [now discriminate H2|].
  destruct (has "kadagiti"); [now discriminate H3|].
  destruct (has "konstitusion"); [now discriminate H4|].
  simpl. now rewrite !orb_false_r.
Qed.

(** ** Construction *)


(** ** Provider calls of one run *)

Section ProviderCalls.

Context {PS Vec : Type} (P : Providers PS Vec).

Lemma translate_node_calls (self : RAGSystem PS Vec) (state : GraphState.t)
      (w : World PS) :
  exists v w' text,
    translate_node P self state w =
      (Ok (GraphState.set_translated_query v state), w') /\
    PromptTemplate.format translation_prompt
      [("query", GraphState.query state); ("language", "English")] = Ok text /\
    llm_calls (trace w') =
      (llm_calls (trace w)
       ++ if is_ilocano (GraphState.query state) then [(llm self, text)] else [])%list /\
    embed_calls (trace w') = embed_calls (trace w) /\
    (if is_ilocano (GraphState.query state) then True
     else v = GraphState.query state).
Proof.
  destruct (translation_prompt_formats (GraphState.query state)) as [text Ht].
  unfold translate_node.
  destruct (is_ilocano (GraphState.query state)).
  - run_monad. rewrite Ht.
    destruct (chat_completions P (llm self) text (provider_state w))
      as [[m|e] st]; do 3 eexists; (split; [reflexivity|]);
      (split; [reflexivity|]); simpl; autorewrite with trace; simpl;
      now rewrite ?app_nil_r.
  - exists (GraphState.query state), w, text.
    rewrite app_nil_r. now repeat split.
Qed.

Lemma retrieve_node_calls (self : RAGSystem PS Vec) (state : GraphState.t)
      (w : World PS) :
  exists c docs w',
    retrieve_node P self state w =
      (Ok (GraphState.set_source_docs docs (GraphState.set_context c state)), w') /\
    llm_calls (trace w') = llm_calls (trace w) /\
    embed_calls (trace w') =
      (embed_calls (trace w)
       ++ match retriever self with
          | Some _ => [GraphState.translated_query state]
          | None => []
          end)%list.
Proof.
  unfold retrieve_node.
  destruct (retriever self) as [r|].
  - run_monad.
    destruct (embed_query P (GraphState.translated_query state) (provider_state w))
      as [[v|e] st].
    + destruct (ranked (vectorstore_of r) v) as [docs|e];
        do 3 eexists; (split; [reflexivity|]);
        simpl; autorewrite with trace; simpl; now rewrite ?app_nil_r.
    + do 3 eexists; (split; [reflexivity|]);
        simpl; autorewrite with trace; simpl; now rewrite ?app_nil_r.
  - do 2 eexists; exists w. rewrite app_nil_r. now repeat split.
Qed.

Lemma generate_node_calls (self : RAGSystem PS Vec) (state : GraphState.t)
      (w : World PS) :
  exists a w' text,
    generate_node P self state w = (Ok (GraphState.set_answer a state), w') /\
    llm_calls (trace w') = (llm_calls (trace w) ++ [(llm self, text)])%list /\
    embed_calls (trace w') = embed_calls (trace w).
Proof.
  unfold generate_node.
  destruct (rag_prompt_formats (GraphState.context state) (GraphState.query state))
    as [text Ht].
  run_monad. rewrite Ht.
  destruct (chat_completions P (llm self) text (provider_state w))
    as [[m|e] st]; do 3 eexists; (split; [reflexivity|]);
    simpl; autorewrite with trace; simpl; now rewrite ?app_nil_r.
Qed.

End ProviderCalls.

(** C5. A provider that raises inside a stage does not stop the pipeline.
    When the translate call raises, [translated_query] is the question as it
    was typed, and in the run of the workflow Retrieve is then called on that
    state, embedding the question, and Generate on what Retrieve leaves.
    When the retriever raises, [context] is the fixed placeholder and
    [source_docs] is empty, and in the run Generate is then called on that
    state: it sends the answer prompt with the placeholder to the chat model
    and stores what comes back.  In both cases the run returns the state
    that Generate leaves. *)
Theorem stage_failures_do_not_abort {PS Vec : Type} (P : Providers PS Vec)
        (self : RAGSystem PS Vec) (state : GraphState.t) (w : World PS) :
  (forall e w1,
      is_ilocano (GraphState.query state) = true ->
      chain_invoke P translation_prompt (llm self)
        [("query", GraphState.query state); ("language", "English")] w = (Raise e, w1) ->
      translate_node P self state w =
        (Ok (GraphState.set_translated_query (GraphState.query state) state),
         record (Log ERROR ("Translation error: " ++ str_exn e)) w1)) /\
  (forall r e w1,
      retriever self = Some r ->
      retriever_invoke P r (GraphState.translated_query state) w = (Raise e, w1) ->
      retrieve_node P self state w =
        (Ok (GraphState.set_source_docs []
               (GraphState.set_context retrieval_error_message state)),
         record (Log ERROR ("Retrieval error: " ++ str_exn e)) w1)) /\
  (forall e w1,
      is_ilocano (GraphState.query state) = true ->
      chain_invoke P translation_prompt (llm self)
        [("query", GraphState.query state); ("language", "English")]
        (record (NodeRun "translate") w) = (Raise e, w1) ->
      exists s2 w2 s3 w3 prompt,
        retrieve_node P self
          (GraphState.set_translated_query (GraphState.query state) state)
          (record (NodeRun "retrieve")
             (record (Log ERROR ("Translation error: " ++ str_exn e)) w1))
          = (Ok s2, w2) /\
        embed_calls (trace w2) =
          (embed_calls (trace w1)
           ++ match retriever self with
              | Some _ => [GraphState.query state]
              | None => []
              end)%list /\
        PromptTemplate.format rag_prompt
          [("context", GraphState.context s2);
           ("question", GraphState.query state)] = Ok prompt /\
        generate_node P self s2 (record (NodeRun "generate") w2) = (Ok s3, w3) /\
        llm_calls (trace w3) = (llm_calls (trace w2) ++ [(llm self, prompt)])%list /\
        GraphState.answer s3 =
          match fst (chat_completions P (llm self) prompt (provider_state w2)) with
          | Ok response => content response
          | Raise e' => "Error generating response: " ++ str_exn e'
          end /\
        StateGraph.compile (workflow P self) state w = (Ok s3, w3) /\
        GraphState.translated_query s3 = GraphState.query state) /\
  (forall r s1 w1 e w2,
      retriever self = Some r ->
      translate_node P self state (record (NodeRun "translate") w) = (Ok s1, w1) ->
      retriever_invoke P r (GraphState.translated_query s1)
        (record (NodeRun "retrieve") w1) = (Raise e, w2) ->
      exists s3 w3 prompt,
        PromptTemplate.format rag_prompt
          [("context", retrieval_error_message);
           ("question", GraphState.query state)] = Ok prompt /\
        generate_node P self
          (GraphState.set_source_docs []
             (GraphState.set_context retrieval_error_message s1))
          (record (NodeRun "generate")
             (record (Log ERROR ("Retrieval error: " ++ str_exn e)) w2))
          = (Ok s3, w3) /\
        llm_calls (trace w3) = (llm_calls (trace w2) ++ [(llm self, prompt)])%list /\
        GraphState.answer s3 =
          match fst (chat_completions P (llm self) prompt (provider_state w2)) with
          | Ok response => content response
          | Raise e' => "Error generating response: " ++ str_exn e'
          end /\
        StateGraph.compile (workflow P self) state w = (Ok s3, w3) /\
        GraphState.context s3 = retrieval_error_message /\
        GraphState.source_docs s3 = []).
Proof.
  assert (forall st wa e w1,
             is_ilocano (GraphState.query st) = true ->
             chain_invoke P translation_prompt (llm self)
               [("query", GraphState.query st); ("language", "English")] wa
               = (Raise e, w1) ->
             translate_node P self st wa =
               (Ok (GraphState.set_translated_query (GraphState.query st) st),
                record (Log ERROR ("Translation error: " ++ str_exn e)) w1))
    as Htranslate.
  { intros st wa e w1 Hil Hraise. unfold translate_node. rewrite Hil.
    unfold try_except at 1. unfold bind at 1. rewrite Hraise. reflexivity. }
  assert (forall st wa r e w1,
             retriever self = Some r ->
             retriever_invoke P r (GraphState.translated_query st) wa = (Raise e, w1) ->
             retrieve_node P self st wa =
               (Ok (GraphState.set_source_docs []
                      (GraphState.set_context retrieval_error_message st)),
                record (Log ERROR ("Retrieval error: " ++ str_exn e)) w1))
    as Hretrieve.
  { intros st wa r e w1 Hr Hraise. unfold retrieve_node. rewrite Hr.
    unfold try_except at 1. unfold bind at 1. rewrite Hraise. reflexivity. }
  split; [exact (Htranslate state w)|].
  split; [exact (fun r e w1 => Hretrieve state w r e w1)|].
  split.
  - intros e w1 Hil Hraise.
    pose proof (Htranslate state _ e w1 Hil Hraise) as E1.
    destruct (retrieve_node_calls P self
                (GraphState.set_translated_query (GraphState.query state) state)
                (record (NodeRun "retrieve")
                   (record (Log ERROR ("Translation error: " ++ str_exn e)) w1)))
      as (c & docs & w2 & E2 & _ & M2).
    destruct (generate_node_runs P self
                (GraphState.set_source_docs docs
                   (GraphState.set_context c
                      (GraphState.set_translated_query
                         (GraphState.query state) state)))
                (record (NodeRun "generate") w2))
      as (prompt & w3 & Hp & L3 & E3).
    do 4 eexists. exists prompt.
    split; [exact E2|]. split.
    { rewrite M2. unfold record. simpl trace. rewrite !embed_calls_app. simpl.
      now rewrite !app_nil_r. }
    split; [exact Hp|]. split; [exact E3|]. split.
    { rewrite L3. unfold record. simpl trace. rewrite llm_calls_app. simpl.
      now rewrite app_nil_r. }
    split; [reflexivity|]. split; [|reflexivity].
    rewrite workflow_unfolds. unfold bind, emit, ret.
    now rewrite E1, E2, E3.
  - intros r s1 w1 e w2 Hr E1 Hraise.
    pose proof (Hretrieve s1 _ r e w2 Hr Hraise) as E2.
    destruct (translate_node_returns P self state (record (NodeRun "translate") w))
      as (v & w1' & E1' & _).
    rewrite E1 in E1'. injection E1' as -> _.
    destruct (generate_node_runs P self
                (GraphState.set_source_docs []
                   (GraphState.set_context retrieval_error_message
                      (GraphState.set_translated_query v state)))
                (record (NodeRun "generate")
                   (record (Log ERROR ("Retrieval error: " ++ str_exn e)) w2)))
      as (prompt & w3 & Hp & L3 & E3).
    do 2 eexists. exists prompt.
    split; [exact Hp|]. split; [exact E3|]. split.
    { rewrite L3. unfold record. simpl trace. rewrite !llm_calls_app. simpl.
      now rewrite !app_nil_r. }
    split; [reflexivity|]. split; [|now split].
    rewrite workflow_unfolds. unfold bind, emit, ret.
    now rewrite E1, E2, E3.
Qed.

Lemma stage_failures_do_not_abort_witness :
  chain_invoke Stub.down translation_prompt (llm Stub.offline)
    [("query", "ania"); ("language", "English")]
    (record (NodeRun "translate") Stub.w0)
    = (Raise (Exception "Connection error."),
       record (LLMCall ChatOpenAI_config
                 match PromptTemplate.format translation_prompt
                         [("query", "ania"); ("language", "English")] with
                 | Ok text => text
                 | Raise _ => ""
                 end) (record (NodeRun "translate") Stub.w0)) /\
  retriever_invoke Stub.down
    {| vectorstore_of := Stub.seven_chunks; search_k := 5 |} "ania"
    (record (NodeRun "retrieve")
       (record (Log ERROR "Translation error: Connection error.")
          (record (LLMCall ChatOpenAI_config
                     match PromptTemplate.format translation_prompt
                             [("query", "ania"); ("language", "English")] with
                     | Ok text => text
                     | Raise _ => ""
                     end) (record (NodeRun "translate") Stub.w0))))
    = (Raise (Exception "Connection error."),
       record (EmbedCall "ania")
         (record (NodeRun "retrieve")
            (record (Log ERROR "Translation error: Connection error.")
               (record (LLMCall ChatOpenAI_config
                          match PromptTemplate.format translation_prompt
                                  [("query", "ania"); ("language", "English")] with
                          | Ok text => text
                          | Raise _ => ""
                          end) (record (NodeRun "translate") Stub.w0))))) /\
  exists final w',
    StateGraph.compile (workflow Stub.down Stub.offline) (initial_state "ania") Stub.w0
      = (Ok final, w') /\
    final =
      {| GraphState.query := "ania";
         GraphState.translated_query := "ania";
         GraphState.context := "Error retrieving documents.";
         GraphState.answer := "Error generating response: Connection error.";
         GraphState.source_docs := [] |} /\
    embed_calls (trace w') = ["ania"] /\
    length (llm_calls (trace w')) = 2.
Proof.
  split; [reflexivity|]. split; [reflexivity|].
  destruct (stage_failures_do_not_abort Stub.down Stub.offline
              (initial_state "ania") Stub.w0) as (_ & _ & Htr & Hre).
  destruct (Htr (Exception "Connection error.") _ eq_refl eq_refl)
    as (s2 & w2 & s3 & w3 & prompt & E2 & Hembed & Hp & E3 & Hllm & Hans & Hrun & Htq).
  destruct (Hre {| vectorstore_of := Stub.seven_chunks; search_k := 5 |}
                _ _ (Exception "Connection error.") _ eq_refl eq_refl eq_refl)
    as (s3' & w3' & prompt' & Hp' & E3' & Hllm' & Hans' & Hrun' & Hctx & Hdocs).
  exists s3', w3'. split; [exact Hrun'|].
  injection E3' as <- <-. repeat split.
Defined.

(** X4. What one run of the workflow costs: two chat-model calls for a
    question the detector takes for Ilocano and one otherwise, all with the
    configuration of the object, and one embedding call when there is a
    retriever.  The text embedded is the [translated_query] of the final
    state, which is the question itself when the detector says no. *)
Theorem workflow_provider_calls {PS Vec : Type} (P : Providers PS Vec)
        (self : RAGSystem PS Vec) (state : GraphState.t) (w : World PS) :
  exists final w' calls,
    StateGraph.compile (workflow P self) state w = (Ok final, w') /\
    llm_calls (trace w') = (llm_calls (trace w) ++ calls)%list /\
    length calls = (if is_ilocano (GraphState.query state) then 2 else 1) /\
    Forall (fun call => fst call = llm self) calls /\
    embed_calls (trace w') =
      (embed_calls (trace w)
       ++ match retriever self with
          | Some _ => [GraphState.translated_query final]
          | None => []
          end)%list /\
    (if is_ilocano (GraphState.query state) then True
     else GraphState.translated_query final = GraphState.query state).
Proof.
  destruct (translate_node_calls P self state (record (NodeRun "translate") w))
    as (v & w1 & text1 & E1 & _ & L1 & M1 & Hv).
  destruct (retrieve_node_calls P self (GraphState.set_translated_query v state)
              (record (NodeRun "retrieve") w1)) as (c & docs & w2 & E2 & L2 & M2).
  destruct (generate_node_calls P self
              (GraphState.set_source_docs docs
                 (GraphState.set_context c
                    (GraphState.set_translated_query v state)))
              (record (NodeRun "generate") w2)) as (a & w3 & text3 & E3 & L3 & M3).
  unfold record in L1, M1, L2, M2, L3, M3.
  simpl trace in L1, M1, L2, M2, L3, M3.
  rewrite llm_calls_app in L1, L2, L3. rewrite embed_calls_app in M1, M2, M3.
  simpl llm_calls in L1, L2, L3. simpl embed_calls in M1, M2, M3.
  rewrite app_nil_r in L1, M1, L2, M2, L3, M3.
  eexists. exists w3.
  exists ((if is_ilocano (GraphState.query state) then [(llm self, text1)] else [])
          ++ [(llm self, text3)])%list.
  split; [|split; [|split; [|split; [|split]]]].
  - rewrite workflow_unfolds. unfold bind, emit, ret. now rewrite E1, E2, E3.
  - now rewrite L3, L2, L1, app_assoc.
  - destruct (is_ilocano (GraphState.query state)); reflexivity.
  - destruct (is_ilocano (GraphState.query state)); repeat constructor.
  - simpl. now rewrite M3, M2, M1.
  - simpl. exact Hv.
Qed.

(** ** Translation is trimmed *)

(** X5. When the translation call answers, [translated_query] is the answer
    without the white space around it: it neither starts nor ends with a
    space character, and trimming it again changes nothing. *)
Theorem translated_query_is_trimmed {PS Vec : Type} (P : Providers PS Vec)
        (self : RAGSystem PS Vec) (state : GraphState.t) (w : World PS)
        (text : string) (translated : AIMessage) (st : PS) :
  is_ilocano (GraphState.query state) = true ->
  PromptTemplate.format translation_prompt
    [("query", GraphState.query state); ("language", "English")] = Ok text ->
  chat_completions P (llm self) text (provider_state w) = (Ok translated, st) ->
  exists tq w',
    translate_node P self state w =
      (Ok (GraphState.set_translated_query tq state), w') /\
    tq = PyStr.strip (content translated) /\
    PyStr.strip tq = tq /\
    (forall c rest, tq = String c rest -> PyStr.isspace c = false) /\
    (forall pre c, tq = pre ++ String c "" -> PyStr.isspace c = false).
Proof.
  intros Hil Htext Hcall.
  exists (PyStr.strip (content translated)). eexists.
  split; [|split; [reflexivity|split; [apply strip_idempotent|split]]].
  - unfold translate_node. rewrite Hil. run_monad. rewrite Htext, Hcall. reflexivity.
  - intros c rest H. exact (strip_head _ _ _ H).
  - intros pre c H. unfold PyStr.strip in H. exact (rstrip_last _ _ _ H).
Qed.

Lemma translated_query_is_trimmed_witness :
  exists text tq w',
    PromptTemplate.format translation_prompt
      [("query", "ania"); ("language", "English")] = Ok text /\
    translate_node Stub.echo Stub.unloaded (initial_state "ania") Stub.w0 =
      (Ok (GraphState.set_translated_query tq (initial_state "ania")), w') /\
    tq = PyStr.strip text /\
    PyStr.strip tq = tq.
Proof.
  destruct (translation_prompt_formats "ania") as [text Ht].
  destruct (translated_query_is_trimmed Stub.echo Stub.unloaded
              (initial_state "ania") Stub.w0 text {| content := text |} tt
              eq_refl Ht eq_refl) as (tq & w' & Hrun & Htq & Hidem & _).
  exists text, tq, w'. now repeat split.
Defined.

(** ** The prompts *)

(** X6. Whatever the context and the question are, braces and field names
    included, both prompts format, and the inputs stand in them as they are:
    the answer prompt is fixed text, the context, fixed text, the question,
    fixed text; the translation prompt is fixed text around the question. *)
Theorem prompts_embed_their_inputs :
  (exists head middle tail, forall context question,
      PromptTemplate.format rag_prompt
        [("context", context); ("question", question)]
      = Ok (head ++ context ++ middle ++ question ++ tail)) /\
  (exists head tail, forall query,
      PromptTemplate.format translation_prompt
        [("query", query); ("language", "English")]
      = Ok (head ++ query ++ tail)).
Proof.
  split.
  - pose (t := PromptTemplate.template rag_prompt).
    pose (i := match index 0 "{context}" t with Some i => i | None => 0 end).
    pose (j := match index 0 "{question}" t with Some j => j | None => 0 end).
    exists (substring 0 i t), (substring (i + 9) (j - (i + 9)) t),
           (substring (j + 10) (String.length t - (j + 10)) t).
    intros context question. vm_compute. reflexivity.
  - pose (t := PromptTemplate.template translation_prompt).
    pose (i := match index 0 "{query}" t with Some i => i | None => 0 end).
    pose (j := match index 0 "{language}" t with Some j => j | None => 0 end).
    exists (substring 0 i t),
           (substring (i + 7) (j - (i + 7)) t ++ "English"
            ++ substring (j + 10) (String.length t - (j + 10)) t).
    intros query. vm_compute. reflexivity.
Qed.

(** ** [query] on a constructed object *)

Section BuiltObject.

Context {PS Vec : Type} (P : Providers PS Vec).

(** The stages read the chat-model configuration and the retriever of the
    object, and nothing else of it. *)
Lemma stages_read_llm_and_retriever (self self' : RAGSystem PS Vec) :
  llm self = llm self' -> retriever self = retriever self' ->
  translate_node P self = translate_node P self' /\
  retrieve_node P self = retrieve_node P self' /\
  generate_node P self = generate_node P self'.
Proof.
  intros Hl Hr. unfold translate_node, retrieve_node, generate_node.
  now rewrite Hl, Hr.
Qed.

End BuiltObject.

(** X7. On an object that [__init__] built with the index loaded, [query] is
    the three stages in a row on the state made from the question, and its
    result is the answer that Generate stored: the handler of [query] never
    takes over, whatever the providers do. *)
Theorem query_is_the_three_stages {PS Vec : Type} (P : Providers PS Vec)
        (OPENAI_API_KEY : option string)
        (vs : FAISS Vec) (w0 w1 : World PS) (self : RAGSystem PS Vec)
        (question : string) (w : World PS) :
  RAGSystem_init P OPENAI_API_KEY (Some (Ok vs)) w0 = (Ok self, w1) ->
  exists s1 wa s2 wb s3 wc,
    translate_node P self (initial_state question)
      (record (NodeRun "translate")
         (record (Log INFO ("Processing query: " ++ question)) w)) = (Ok s1, wa) /\
    retrieve_node P self s1 (record (NodeRun "retrieve") wa) = (Ok s2, wb) /\
    generate_node P self s2 (record (NodeRun "generate") wb) = (Ok s3, wc) /\
    query self question w = (Ok (GraphState.answer s3), wc) /\
    GraphState.query s3 = question.
Proof.
  intros Hinit.
  pose proof (RAGSystem_init_needs_key P _ _ _ _ _ Hinit) as Hkey.
  destruct (RAGSystem_init_returns P OPENAI_API_KEY (Some (Ok vs)) w0 Hkey)
    as (self' & w1' & Hinit' & _ & Hretr & Happ & _).
  rewrite Hinit in Hinit'. injection Hinit' as <- <-.
  set (self0 := {| llm := llm self; vectorstore := vectorstore self;
                   retriever := retriever self; app := None |}) in *.
  destruct (stages_read_llm_and_retriever P self self0 eq_refl eq_refl)
    as (-> & -> & ->).
  destruct (workflow_stages P self0 (initial_state question)
              (record (Log INFO ("Processing query: " ++ question)) w))
    as (s1 & wa & s2 & wb & s3 & wc & E1 & E2 & E3 & Erun & _).
  exists s1, wa, s2, wb, s3, wc.
  repeat (split; [assumption|]). split.
  - unfold query, app_invoke. rewrite Hretr, Happ. fold self0. run_monad.
    now rewrite Erun.
  - destruct (translate_node_returns P self0 (initial_state question)
                (record (NodeRun "translate")
                   (record (Log INFO ("Processing query: " ++ question)) w)))
      as (v & wa' & E1' & _).
    destruct (retrieve_node_returns P self0 s1 (record (NodeRun "retrieve") wa))
      as (c & docs & wb' & E2' & _).
    destruct (generate_node_returns P self0 s2 (record (NodeRun "generate") wb))
      as (a & wc' & E3' & _).
    rewrite E1 in E1'. rewrite E2 in E2'. rewrite E3 in E3'.
    injection E1' as -> _. injection E2' as -> _. injection E3' as -> _.
    reflexivity.
Qed.

Lemma query_is_the_three_stages_witness :
  exists self w1 w',
    RAGSystem_init Stub.down Stub.key (Some (Ok Stub.seven_chunks)) Stub.w0
      = (Ok self, w1) /\
    query self "ania" Stub.w0 =
      (Ok "Error generating response: Connection error.", w') /\
    nodes_run (trace w') = ["translate"; "retrieve"; "generate"].
Proof.
  pose (built := RAGSystem_init Stub.down Stub.key
                   (Some (Ok Stub.seven_chunks)) Stub.w0).
  exists (match fst built with Ok s => s | Raise _ => Stub.unloaded end),
         (snd built).
  assert (RAGSystem_init Stub.down Stub.key (Some (Ok Stub.seven_chunks)) Stub.w0
          = (Ok (match fst built with Ok s => s | Raise _ => Stub.unloaded end),
             snd built)) as Hinit by reflexivity.
  destruct (query_is_the_three_stages Stub.down Stub.key Stub.seven_chunks
              Stub.w0 _ _ "ania" Stub.w0 Hinit)
    as (s1 & wa & s2 & wb & s3 & wc & E1 & E2 & E3 & Hq & _).
  exists wc. split; [exact Hinit|].
  injection E1 as <- <-. injection E2 as <- <-. injection E3 as <- <-.
  split; [exact Hq | reflexivity].
Defined.

(** ** A session of chat turns *)

Section ChatSession.

Context {PS Vec : Type}.


End ChatSession.


(** ** Dictionaries *)

Section DictFacts.

Context {V : Type}.

Lemma get_setitem_same (key : string) (v : V) (d : list (string * V)) :
  PyDict.get key (PyDict.setitem key v d) = Some v.
Proof.
  induction d as [|[k v'] d IH]; simpl.
  - now rewrite String.eqb_refl.
  - destruct (String.eqb k key) eqn:E; simpl; now rewrite E.
Qed.

Lemma get_setitem_other (key other : string) (v : V) (d : list (string * V)) :
  other <> key ->
  PyDict.get key (PyDict.setitem other v d) = PyDict.get key d.
Proof.
  intros Hne. induction d as [|[k v'] d IH]; simpl.
  - destruct (String.eqb other key) eqn:E; [|reflexivity].
    apply String.eqb_eq in E. contradiction.
  - destruct (String.eqb k other) eqn:E; simpl.
    + apply String.eqb_eq in E. subst k.
      destruct (String.eqb other key) eqn:E'; [|reflexivity].
      apply String.eqb_eq in E'. contradiction.
    + destruct (String.eqb k key); [reflexivity | exact IH].
Qed.



End DictFacts.

Section CountFacts.





End CountFacts.


(** ** [format_sources] *)

Lemma format_sources_from_lines (sources : list Document) (i : nat)
      (formatted : string) :
  format_sources_from i sources formatted =
    formatted
    ++ fold_right append ""
         (map source_line (combine (seq i (length sources)) sources)).
Proof.
  revert i formatted. induction sources as [|source rest IH]; intros i formatted.
  - simpl. now rewrite str_app_nil_r.
  - cbn [format_sources_from length seq combine map fold_right].
    rewrite IH. unfold source_line at 2. cbn [fst snd].
    rewrite !str_app_assoc. reflexivity.
Qed.

(** X10. [format_sources] answers "No sources found." for no source;
    otherwise the header and then one line per source, in the order given and
    numbered from 1, with the [filename] of the source or "Unknown" when its
    metadata has none. *)
Theorem format_sources_lists_every_source (sources : list Document) :
  format_sources sources =
    match sources with
    | [] => "No sources found."
    | _ :: _ =>
        sources_header
        ++ fold_right append ""
             (map source_line (combine (seq 1 (length sources)) sources))
    end.
Proof.
  destruct sources as [|source rest]; [reflexivity|].
  unfold format_sources. apply format_sources_from_lines.
Qed.

(** ** [setup_logging] *)

Lemma mkdir_exist_ok_idempotent (d : string) (dirs : list string) :
  mkdir_exist_ok d (mkdir_exist_ok d dirs) = mkdir_exist_ok d dirs.
Proof.
  assert (existsb (String.eqb d) (mkdir_exist_ok d dirs) = true) as Hin.
  { unfold mkdir_exist_ok. destruct (existsb (String.eqb d) dirs) eqn:E; [exact E|].
    rewrite existsb_app. simpl. now rewrite String.eqb_refl, orb_true_r. }
  unfold mkdir_exist_ok at 1. now rewrite Hin.
Qed.

Lemma setup_logging_again (first later : string) (env : Logging.Env) :
  setup_logging later (setup_logging first env) = setup_logging first env.
Proof.
  unfold setup_logging at 2.
  destruct (Logging.handlers (Logging.logger env)) as [|h hs] eqn:E;
    unfold setup_logging; simpl; try rewrite E;
    now rewrite mkdir_exist_ok_idempotent.
Qed.

(** X11. Only the first call of [setup_logging] in a process adds handlers:
    any later calls, on whatever day, leave the directories, the log files
    opened and the logger as the first call left them.  Starting from a logger
    without handlers that is one file handler, on the log file of the first
    day, and one console handler. *)
Theorem setup_logging_adds_handlers_once (first : string) (later : list string)
        (env : Logging.Env) :
  fold_left (fun e timestamp => setup_logging timestamp e) later
            (setup_logging first env) = setup_logging first env /\
  Logging.handlers (Logging.logger (setup_logging first env)) =
    match Logging.handlers (Logging.logger env) with
    | [] => [ Logging.FileHandler ("logs/application_logs_" ++ first ++ ".log")
                                  INFO log_format;
              Logging.StreamHandler INFO log_format ]
    | existing => existing
    end /\
  length (Logging.opened (setup_logging first env)) <=
    length (Logging.opened env) + 1.
Proof.
  split; [|split].
  - induction later as [|t rest IH]; simpl; [reflexivity|].
    now rewrite setup_logging_again.
  - unfold setup_logging.
    now destruct (Logging.handlers (Logging.logger env)).
  - unfold setup_logging.
    destruct (Logging.handlers (Logging.logger env)); simpl;
      rewrite ?length_app; simpl; lia.
Qed.

(** ** [load_documents] *)

Section LoadDocuments.

Context {Vec : Type} (tools : @Tools Vec).

Lemma load_file_adds_loaded_pages (file_path : PyPath.t)
      (documents : list Document) (out : list string) :
  exists printed,
    load_file tools file_path documents out =
      (Script.Done (documents ++ loaded_pages tools file_path)%list,
       (out ++ printed)%list).
Proof.
  unfold load_file, loaded_pages.
  destruct (existsb _ supported_extensions).
  - unfold Script.try_except, Script.bind, Script.print, Script.ret,
      Script.raise, Script.of_result.
    destruct (loader_for _) as [loader|]; simpl.
    + destruct (loader_load tools loader (PyPath.str file_path)) as [docs|e];
        simpl; rewrite ?app_nil_r; eexists; rewrite <- !app_assoc; reflexivity.
    + rewrite app_nil_r. eexists; rewrite <- !app_assoc; reflexivity.
  - exists []. unfold Script.ret. now rewrite !app_nil_r.
Qed.

Lemma load_files_adds_loaded_pages (entries : list PyPath.t)
      (documents : list Document) (out : list string) :
  exists printed,
    load_files tools entries documents out =
      (Script.Done (documents ++ flat_map (loaded_pages tools) entries)%list,
       (out ++ printed)%list).
Proof.
  revert documents out. induction entries as [|file_path rest IH];
    intros documents out; simpl.
  - exists []. unfold Script.ret. now rewrite !app_nil_r.
  - destruct (load_file_adds_loaded_pages file_path documents out) as [p1 H1].
    destruct (IH (documents ++ loaded_pages tools file_path)%list (out ++ p1)%list)
      as [p2 H2].
    exists (p1 ++ p2)%list. unfold Script.bind. rewrite H1, H2.
    now rewrite <- !app_assoc.
Qed.

Lemma loaded_pages_metadata (file_path : PyPath.t) (doc : Document) :
  In doc (loaded_pages tools file_path) ->
  In (PyStr.lower (PyPath.suffix file_path)) supported_extensions /\
  PyDict.get "source" (metadata doc) = Some (PyPath.str file_path) /\
  PyDict.get "filename" (metadata doc) = Some (PyPath.name file_path) /\
  PyDict.get "file_type" (metadata doc) = Some (PyPath.suffix file_path).
Proof.
  unfold loaded_pages.
  destruct (existsb _ supported_extensions) eqn:Esup; [|intros []].
  destruct (loader_for _) as [loader|]; [|intros []].
  destruct (loader_load tools loader (PyPath.str file_path)) as [docs|e];
    [|intros []].
  intros Hin. apply in_map_iff in Hin. destruct Hin as (page & <- & _).
  split.
  - apply existsb_exists in Esup. destruct Esup as (ext & Hin & Heq).
    apply String.eqb_eq in Heq. now rewrite Heq.
  - unfold add_metadata, file_metadata, PyDict.update. simpl.
    repeat split.
    + rewrite !get_setitem_other by discriminate. apply get_setitem_same.
    + rewrite get_setitem_other by discriminate. apply get_setitem_same.
    + apply get_setitem_same.
Qed.

End LoadDocuments.

(** X12. What [load_documents] does with a folder.  A folder that does not
    exist raises at once, with nothing printed.  Otherwise the result is the
    pages of the supported files that load, file after file in the order of
    the directory; a file that fails to load or has another suffix adds
    nothing and stops nothing; and when no page at all was loaded the call
    raises instead of returning an empty list. *)
Theorem load_documents_outcome {Vec : Type} (tools : @Tools Vec)
        (folder_path : string) (folder : Folder) (out : list string) :
  exists printed,
    load_documents tools folder_path folder out =
      (match folder with
       | None => Script.Raised (Exception ("Folder " ++ folder_path ++ " not found"))
       | Some entries =>
           match flat_map (loaded_pages tools) entries with
           | [] => Script.Raised (Exception "No documents were successfully loaded")
           | documents => Script.Done documents
           end
       end, (out ++ printed)%list) /\
    match folder with
    | None => printed = []
    | Some _ => True
    end.
Proof.
  destruct folder as [entries|]; simpl.
  - destruct (load_files_adds_loaded_pages tools entries [] out) as [printed H].
    exists printed. split; [|exact I].
    unfold Script.bind. rewrite H. simpl.
    now destruct (flat_map (loaded_pages tools) entries).
  - exists []. rewrite app_nil_r. now split.
Qed.

Lemma load_documents_outcome_witness :
  fst (load_documents Sample.tools "data" (Some Sample.data) []) =
    Script.Done
      (map (add_metadata (Sample.entry "Constitution.PDF" true))
           [Sample.page "Article I"; Sample.page "Article II"]
       ++ map (add_metadata (Sample.entry "bill.txt" true))
              [Sample.page "Bill of rights"])%list.
Proof.
  destruct (load_documents_outcome Sample.tools "data" (Some Sample.data) [])
    as (printed & Hrun & _).
  rewrite Hrun. reflexivity.
Defined.

(** X13. Every page that [load_documents] returns comes from a file of the
    folder with a supported suffix and carries that file in its metadata:
    [source] is its path, [filename] its name and [file_type] its suffix as
    spelled on disk.  So [load_documents] never returns an empty list, and
    [format_sources] never prints "Unknown" for such a page. *)
Theorem loaded_documents_carry_their_file {Vec : Type} (tools : @Tools Vec)
        (folder_path : string) (entries : list PyPath.t)
        (out out' : list string) (documents : list Document) :
  load_documents tools folder_path (Some entries) out = (Script.Done documents, out') ->
  documents <> [] /\
  forall doc, In doc documents ->
    exists file_path,
      In file_path entries /\
      In (PyStr.lower (PyPath.suffix file_path)) supported_extensions /\
      PyDict.get "source" (metadata doc) = Some (PyPath.str file_path) /\
      PyDict.get "filename" (metadata doc) = Some (PyPath.name file_path) /\
      PyDict.get "file_type" (metadata doc) = Some (PyPath.suffix file_path) /\
      source_line (1, doc) = "1. " ++ PyPath.name file_path ++ PyStr.nl.
Proof.
  unfold load_documents, Script.bind.
  destruct (load_files_adds_loaded_pages tools entries [] out) as [printed H].
  rewrite H. simpl.
  destruct (flat_map (loaded_pages tools) entries) as [|first rest] eqn:E;
    [discriminate|].
  intros Hdone. injection Hdone as <- _.
  split; [discriminate|].
  intros doc Hin. rewrite <- E in Hin.
  apply in_flat_map in Hin. destruct Hin as (file_path & Hentry & Hpage).
  destruct (loaded_pages_metadata tools file_path doc Hpage)
    as (Hsup & Hsrc & Hname & Htype).
  exists file_path. repeat (split; [assumption|]).
  unfold source_line, PyDict.get_default. simpl fst. simpl snd.
  now rewrite Hname.
Qed.

Lemma loaded_documents_carry_their_file_witness :
  exists documents out',
    load_documents Sample.tools "data" (Some Sample.data) [] =
      (Script.Done documents, out') /\
    documents <> [] /\
    map (fun doc => PyDict.get_default "file_type" "" (metadata doc)) documents =
      [".PDF"; ".PDF"; ".txt"] /\
    format_sources documents =
      sources_header ++ "1. Constitution.PDF" ++ PyStr.nl
      ++ "2. Constitution.PDF" ++ PyStr.nl ++ "3. bill.txt" ++ PyStr.nl.
Proof.
  pose (run := load_documents Sample.tools "data" (Some Sample.data) []).
  exists (match fst run with Script.Done documents => documents | _ => [] end),
         (snd run).
  assert (load_documents Sample.tools "data" (Some Sample.data) [] =
          (Script.Done
             (match fst run with Script.Done documents => documents | _ => [] end),
           snd run)) as Hrun by reflexivity.
  split; [exact Hrun|]. split.
  - exact (proj1 (loaded_documents_carry_their_file Sample.tools "data"
                    Sample.data [] _ _ Hrun)).
  - split; reflexivity.
Defined.

(** ** How a script ends *)

Section ScriptFacts.

Lemma fst_bind {A B : Type} (m : Script.t A) (f : A -> Script.t B)
      (out : list string) :
  fst (Script.bind m f out) =
    match fst (m out) with
    | Script.Done a => fst (f a (snd (m out)))
    | Script.Raised e => Script.Raised e
    | Script.Exited code => Script.Exited code
    end.
Proof. unfold Script.bind. now destruct (m out) as [[a|e|code] out']. Qed.

Lemma fst_try_except {A : Type} (m : Script.t A) (h : exn -> Script.t A)
      (out : list string) :
  fst (Script.try_except m h out) =
    match fst (m out) with
    | Script.Done a => Script.Done a
    | Script.Raised e => fst (h e (snd (m out)))
    | Script.Exited code => Script.Exited code
    end.
Proof. unfold Script.try_except. now destruct (m out) as [[a|e|code] out']. Qed.

Lemma fst_print (line : string) (out : list string) :
  fst (Script.print line out) = Script.Done tt.
Proof. reflexivity. Qed.

Lemma fst_of_result {A : Type} (r : result A) (out : list string) :
  fst (Script.of_result r out) =
    match r with
    | Ok a => Script.Done a
    | Raise e => Script.Raised e
    end.
Proof. now destruct r. Qed.

Context {Vec : Type} (tools : @Tools Vec).

Lemma fst_load_documents (folder_path : string) (entries : list PyPath.t)
      (out : list string) :
  fst (load_documents tools folder_path (Some entries) out) =
    match flat_map (loaded_pages tools) entries with
    | [] => Script.Raised (Exception "No documents were successfully loaded")
    | documents => Script.Done documents
    end.
Proof.
  unfold load_documents. rewrite fst_bind.
  destruct (load_files_adds_loaded_pages tools entries [] out) as [printed H].
  rewrite H. simpl.
  now destruct (flat_map (loaded_pages tools) entries).
Qed.

Lemma fst_split_documents (documents : list Document) (out : list string) :
  fst (split_documents tools documents out) =
    match split_documents_with tools documents with
    | Ok chunks => Script.Done chunks
    | Raise e => Script.Raised e
    end.
Proof.
  unfold split_documents. rewrite fst_bind, fst_print, fst_bind, fst_of_result.
  now destruct (split_documents_with tools documents).
Qed.

Lemma fst_create_vector_store (chunks : list Document) (out : list string) :
  fst (create_vector_store tools chunks out) =
    match FAISS_from_documents tools chunks with
    | Ok vectorstore =>
        match save_local tools vectorstore "vectorstore" with
        | Ok _ => Script.Done vectorstore
        | Raise e => Script.Raised e
        end
    | Raise e => Script.Raised e
    end.
Proof.
  unfold create_vector_store. rewrite fst_bind, fst_print, fst_bind, fst_of_result.
  destruct (FAISS_from_documents tools chunks) as [vs|e]; [|reflexivity].
  rewrite fst_bind, fst_of_result.
  now destruct (save_local tools vs "vectorstore").
Qed.

(** How [main] ends, step by step. *)
Lemma fst_process_documents_main (OPENAI_API_KEY : option string) (data : Folder)
      (out : list string) :
  fst (process_documents_main tools OPENAI_API_KEY data out) =
    match data with
    | None | Some [] => Script.Exited 1
    | Some entries =>
        if getenv_truthy OPENAI_API_KEY then
          match flat_map (loaded_pages tools) entries with
          | [] => Script.Exited 1
          | documents =>
              match split_documents_with tools documents with
              | Raise _ => Script.Exited 1
              | Ok chunks =>
                  match FAISS_from_documents tools chunks with
                  | Raise _ => Script.Exited 1
                  | Ok vectorstore =>
                      match save_local tools vectorstore "vectorstore" with
                      | Raise _ => Script.Exited 1
                      | Ok _ => Script.Done vectorstore
                      end
                  end
              end
          end
        else Script.Exited 1
    end.
Proof.
  unfold process_documents_main.
  rewrite fst_bind, fst_print, fst_bind, fst_print, fst_try_except, fst_bind.
  destruct data as [[|first rest]|]; [reflexivity| |reflexivity].
  set (entries := first :: rest).
  change (fst (Script.ret entries _)) with (Script.Done entries : Script.outcome _).
  cbv beta iota.
  rewrite fst_bind.
  change (fst (Script.ret tt _)) with (Script.Done tt : Script.outcome unit).
  cbv beta iota.
  rewrite fst_bind, fst_print, fst_bind.
  unfold DocumentProcessor_init.
  destruct (getenv_truthy OPENAI_API_KEY); [|reflexivity].
  change (fst (Script.ret tt _)) with (Script.Done tt : Script.outcome unit).
  cbv beta iota.
  rewrite fst_bind, fst_load_documents.
  destruct (flat_map (loaded_pages tools) entries) as [|d ds]; [reflexivity|].
  rewrite fst_bind, fst_print, fst_bind, fst_split_documents.
  destruct (split_documents_with tools (d :: ds)) as [chunks|e]; [|reflexivity].
  rewrite fst_bind, fst_create_vector_store.
  destruct (FAISS_from_documents tools chunks) as [vs|e]; [|reflexivity].
  destruct (save_local tools vs "vectorstore") as [[]|e]; reflexivity.
Qed.

End ScriptFacts.

(** X14. [main] of [process_documents.py] never lets an exception out: it
    ends normally or with exit status 1.  It ends normally exactly when the
    folder exists and is not empty, the key is set, some page was loaded, and
    the splitter, the index construction and the saving all succeed; the
    index saved is then the one built from the chunks of the loaded pages. *)
Theorem process_documents_main_outcome {Vec : Type} (tools : @Tools Vec)
        (OPENAI_API_KEY : option string) (data : Folder) (out : list string) :
  match fst (process_documents_main tools OPENAI_API_KEY data out) with
  | Script.Done vectorstore =>
      getenv_truthy OPENAI_API_KEY = true /\
      exists entries chunks,
        data = Some entries /\
        flat_map (loaded_pages tools) entries <> [] /\
        split_documents_with tools (flat_map (loaded_pages tools) entries)
          = Ok chunks /\
        FAISS_from_documents tools chunks = Ok vectorstore /\
        save_local tools vectorstore "vectorstore" = Ok tt
  | Script.Exited code => code = 1
  | Script.Raised _ => False
  end /\
  (forall entries chunks vectorstore,
      getenv_truthy OPENAI_API_KEY = true ->
      data = Some entries ->
      flat_map (loaded_pages tools) entries <> [] ->
      split_documents_with tools (flat_map (loaded_pages tools) entries)
        = Ok chunks ->
      FAISS_from_documents tools chunks = Ok vectorstore ->
      save_local tools vectorstore "vectorstore" = Ok tt ->
      fst (process_documents_main tools OPENAI_API_KEY data out)
        = Script.Done vectorstore).
Proof.
  rewrite fst_process_documents_main.
  destruct data as [[|first rest]|].
  - split; [reflexivity|]. intros entries chunks vs _ Hd Hne. injection Hd as <-.
    now contradiction Hne.
  - set (entries := first :: rest).
    destruct (getenv_truthy OPENAI_API_KEY) eqn:Ekey;
      [|split; [reflexivity | intros en ch vs Hk; discriminate]].
    destruct (flat_map (loaded_pages tools) entries) as [|d ds] eqn:Epages.
    { split; [reflexivity|]. intros en ch vs _ Hd Hne. injection Hd as <-.
      fold entries in Hne. rewrite Epages in Hne. now contradiction Hne. }
    destruct (split_documents_with tools (d :: ds)) as [chunks|e] eqn:Esplit.
    2:{ split; [reflexivity|]. intros en ch vs _ Hd _ Hs. injection Hd as <-.
        fold entries in Hs. rewrite Epages, Esplit in Hs. discriminate. }
    destruct (FAISS_from_documents tools chunks) as [vs|e] eqn:Ebuild.
    2:{ split; [reflexivity|]. intros en ch vs' _ Hd _ Hs Hb. injection Hd as <-.
        fold entries in Hs. rewrite Epages, Esplit in Hs. injection Hs as <-.
        rewrite Ebuild in Hb. discriminate. }
    destruct (save_local tools vs "vectorstore") as [[]|e] eqn:Esave.
    2:{ split; [reflexivity|]. intros en ch vs' _ Hd _ Hs Hb Hsave.
        injection Hd as <-. fold entries in Hs. rewrite Epages, Esplit in Hs.
        injection Hs as <-. rewrite Ebuild in Hb. injection Hb as <-.
        rewrite Esave in Hsave. discriminate. }
    split.
    + split; [reflexivity|]. exists entries, chunks. fold entries.
      rewrite Epages. repeat split; try assumption. discriminate.
    + intros en ch vs' _ Hd _ Hs Hb _. injection Hd as <-.
      fold entries in Hs. rewrite Epages, Esplit in Hs. injection Hs as <-.
      rewrite Ebuild in Hb. now injection Hb as <-.
  - split; [reflexivity|]. intros en ch vs _ Hd. discriminate.
Qed.

(** ** [run.py] *)

Lemma first_import_error_none (import_error : string -> option string)
      (packages : list string) :
  first_import_error import_error packages = None <->
  Forall (fun package => import_error package = None) packages.
Proof.
  induction packages as [|package rest IH]; simpl.
  - split; [constructor | reflexivity].
  - destruct (import_error package) as [name|] eqn:E.
    + split; [discriminate | intros H; inversion H; congruence].
    + rewrite IH. split; [now constructor | intros H; now inversion H].
Qed.

(** X15. [check_requirements] reports nothing exactly when the key is set,
    the data folder exists and is not empty, and the four packages import;
    it never reports more than three issues, and [main] of [run.py] starts
    Streamlit exactly when nothing is reported, and runs nothing otherwise. *)
Theorem streamlit_starts_when_requirements_are_met
        (OPENAI_API_KEY : option string) (data : Folder)
        (import_error : string -> option string) (streamlit : Subprocess) :
  (check_requirements OPENAI_API_KEY data import_error = [] <->
   getenv_truthy OPENAI_API_KEY = true /\
   (exists first rest, data = Some (first :: rest)) /\
   Forall (fun package => import_error package = None) required_packages) /\
  length (check_requirements OPENAI_API_KEY data import_error) <= 3 /\
  commands (run_main OPENAI_API_KEY data import_error streamlit) =
    match check_requirements OPENAI_API_KEY data import_error with
    | [] => [["streamlit"; "run"; "app.py"]]
    | _ :: _ => []
    end.
Proof.
  split; [|split].
  - rewrite <- first_import_error_none. unfold check_requirements.
    destruct (getenv_truthy OPENAI_API_KEY);
      destruct data as [[|first rest]|];
      destruct (first_import_error import_error required_packages);
      simpl; split;
      try discriminate; try reflexivity;
      try (intros (Hk & (a & b & Hd) & Hi); discriminate);
      try (intros _; repeat split; eauto).
  - unfold check_requirements.
    destruct (getenv_truthy OPENAI_API_KEY);
      destruct data as [[|first rest]|];
      destruct (first_import_error import_error required_packages);
      simpl; lia.
  - unfold run_main.
    now destruct (check_requirements OPENAI_API_KEY data import_error).
Qed.
